(** * discord-ext-slash_parser: multi-converter resolution

    A shallow embedding of [discord/ext/slash_parser] (utils.py,
    converters.py, errors.py) and the properties of its converter
    normalizer, single-value resolver, multi-value parser and variadic
    wrapper.

    Python objects are embedded as follows.
    - [str] is [string]; the strings are byte strings, so the builtins
      below are modelled on their ASCII fragment.
    - [dict] is an insertion-ordered association list ([Dict.t]), since
      [ParseResult.converted] reads the values back in insertion order.
    - An [async def] that awaits converters of the host framework is a
      function of the host's state ([World]) returning either a value or a
      raised exception together with the new state. *)

From stdpp Require Import base list strings pretty.
From Stdlib Require Import ZArith Ascii.

Local Open Scope string_scope.
Local Open Scope list_scope.

(** ** Python builtins *)

Module Py.

(** The values a converter can hand back. [VObj] stands for any instance
    of a host class (a member, a role, ...); [truth] is what its
    [__bool__] answers, [true] for a class that does not define it. *)
Inductive value : Type :=
| VNone
| VBool (b : bool)
| VInt (z : Z)
| VStr (s : string)
| VObj (name : string) (truth : bool).

(** [bool(v)], as used by [if converted_value:] and [if converted:]. *)
Definition truthy (v : value) : bool :=
  match v with
  | VNone => false
  | VBool b => b
  | VInt z => negb (z =? 0)%Z
  | VStr s => negb (String.eqb s "")
  | VObj _ t => t
  end.

(** *** [str.split(sep)] with an explicit separator *)

(** Scans [s] from the left. [skip] counts the characters of a matched
    separator that are still to be dropped, [cur] is the piece being
    built. *)
Fixpoint split_go (sep s : string) (skip : nat) (cur : string) : list string :=
  match s with
  | EmptyString => [cur]
  | String c s' =>
      match skip with
      | S k => split_go sep s' k cur
      | O =>
          if String.prefix sep s
          then cur :: split_go sep s' (Nat.pred (String.length sep)) ""
          else split_go sep s' 0 (cur +:+ String c "")
      end
  end.

(** [s.split(sep)]: [None] stands for the
    [ValueError("empty separator")] that Python raises. *)
Definition split (s sep : string) : option (list string) :=
  match sep with
  | EmptyString => None
  | _ => Some (split_go sep s 0 "")
  end.

(** *** [int(s)] in base 10 *)

Definition is_space (a : ascii) : bool :=
  let n := nat_of_ascii a in
  ((9 <=? n) && (n <=? 13) || (28 <=? n) && (n <=? 32))%nat.

Definition digit_of (a : ascii) : option Z :=
  let n := Z.of_nat (nat_of_ascii a) in
  if ((48 <=? n) && (n <=? 57))%Z then Some (n - 48)%Z else None.

(** Digits with single underscores between them. [prev] tells whether
    the previous character was a digit. *)
Fixpoint digits (s : list ascii) (acc : Z) (prev : bool) : option Z :=
  match s with
  | [] => if prev then Some acc else None
  | a :: r =>
      match digit_of a with
      | Some d => digits r (10 * acc + d)%Z true
      | None =>
          if Ascii.eqb a "_"%char && prev then digits r acc false
          else None
      end
  end.

Fixpoint drop_space (s : list ascii) : list ascii :=
  match s with
  | a :: r => if is_space a then drop_space r else s
  | [] => []
  end.

(** [s.strip()] *)
Definition strip (s : list ascii) : list ascii :=
  rev (drop_space (rev (drop_space s))).

(** [int(s)]: [None] stands for the [ValueError] of a literal
    that is not an integer. *)
Definition int (s : string) : option Z :=
  match strip (String.list_ascii_of_string s) with
  | "-"%char :: r => Z.opp <$> digits r 0%Z false
  | "+"%char :: r => digits r 0%Z false
  | r => digits r 0%Z false
  end.

(** [str(n)] for an integer and for [None], as an f-string prints an
    [Optional[int]]. *)
Definition str_of_int (z : Z) : string := pretty z.

Definition str_of_optional_int (o : option Z) : string :=
  match o with
  | Some z => str_of_int z
  | None => "None"
  end.

End Py.


(** ** Insertion-ordered dictionaries keyed by strings *)

Module Dict.

Definition t (V : Type) : Type := list (string * V).

Definition empty {V : Type} : t V := [].

(** [d[k] = v]: an existing key keeps its place and takes the new value,
    a new key goes to the end. *)
Fixpoint set {V : Type} (k : string) (v : V) (d : t V) : t V :=
  match d with
  | [] => [(k, v)]
  | (k', v') :: r =>
      if String.eqb k k' then (k, v) :: r else (k', v') :: set k v r
  end.

Fixpoint get {V : Type} (k : string) (d : t V) : option V :=
  match d with
  | [] => None
  | (k', v') :: r => if String.eqb k k' then Some v' else get k r
  end.

(** [k in d] *)
Definition mem {V : Type} (k : string) (d : t V) : bool :=
  match get k d with Some _ => true | None => false end.

Definition keys {V : Type} (d : t V) : list string := map fst d.

(** [d.values()] *)
Definition values {V : Type} (d : t V) : list V := map snd d.

(** [len(d)] *)
Definition len {V : Type} (d : t V) : nat := length d.

(** [bool(d)] *)
Definition truthy {V : Type} (d : t V) : bool :=
  match d with [] => false | _ :: _ => true end.

End Dict.

(** ** _types.py: what may stand in a converter list *)

(** [discord.AppCommandOptionType] *)
Inductive AppCommandOptionType : Type :=
| opt_subcommand | opt_subcommand_group | opt_string | opt_integer
| opt_boolean | opt_user | opt_channel | opt_role | opt_mentionable
| opt_number | opt_attachment.

(** [BuiltinTypes] *)
Inductive builtin_type : Type := py_str | py_int | py_float | py_bool.

(** [DiscordClass] and [DiscordChannelClasses], and [discord.Attachment],
    which the normalizer refuses. [discord.Color] is the same class object
    as [discord.Colour]. *)
Inductive discord_class : Type :=
| User | Member | Role | Attachment
| Message | Colour | Emoji | PartialEmoji | GuildSticker | ScheduledEvent
| Invite | Object | Game
| AppCommandChannel | AppCommandThread | GuildChannel | Thread
| StageChannel | VoiceChannel | TextChannel | CategoryChannel | ForumChannel.

(** [ExtCommandsConverter]: the classes of [discord.ext.commands]. *)
Inductive commands_class : Type :=
| ObjectConverter | MemberConverter | UserConverter | MessageConverter
| PartialMessageConverter | TextChannelConverter | InviteConverter
| GuildConverter | RoleConverter | GameConverter | ColourConverter
| VoiceChannelConverter | StageChannelConverter | EmojiConverter
| PartialEmojiConverter | CategoryChannelConverter | ForumChannelConverter
| ThreadConverter | GuildChannelConverter | GuildStickerConverter
| ScheduledEventConverter | clean_content | Range.

(** [CustomConverter]: a class (or, when [is_class] is [false], an
    instance of a class) written by the developer, with the host classes
    it derives from. *)
Record custom_class : Type := {
  custom_name : string;
  is_class : bool;
  derives_Converter : bool;
  derives_Transformer : bool;
  derives_Transform : bool;
}.

(** [ValidConverter], together with the [typing.Union] of such items that
    [_get_converters] unpacks and the objects it puts into its result. *)
#[warnings="-register-all"]
Inductive ValidConverter : Type :=
| builtin (t : builtin_type)
| discord (c : discord_class)
| commands (c : commands_class)
| app_commands_Range
| library_str_transformer
| StringConverter
| IntegerConverter
| FloatConverter
| BooleanConverter
| custom (c : custom_class)
| Union (args : list ValidConverter).

(** ** errors.py and the exceptions of Python and of the host *)

Inductive type_error : Type :=
| attachments_not_convertible
| unknown_option_type (t : AppCommandOptionType)
| expected_converter (got : ValidConverter)
| issubclass_arg_not_a_class (got : ValidConverter).

(** An exception object. The classes of errors.py carry the attributes
    the parsers read or set; the [transformer] attribute is left out.
    [HostError] is any exception class of the host or of the developer,
    with the three base classes [_run_converters] catches. An exception
    object is truthy, as [if error:] expects. *)
#[warnings="-register-all"]
Inductive exn : Type :=
| ValueError (message : string)
| TypeError (what : type_error)
| AttributeError (message : string)
| HostError (name : string) (bad_argument app_command_error value_error : bool)
| NotAString (value : string)
| NotAnInteger (value : string)
| NotFloat (value : string)
| ParsingFailed (argument : string) (errors : Dict.t exn)
| InvalidVariadicArguments
    (argument : string) (received_arguments : list string) (message : string)
| VariadicArgsFailed
    (argument : string) (received_arguments : list string)
    (errors : Dict.t exn) (message : string).

(** [isinstance(e, commands.BadArgument)] *)
Definition is_BadArgument (e : exn) : bool :=
  match e with
  | HostError _ b _ _ => b
  | _ => false
  end.

(** [isinstance(e, app_commands.AppCommandError)]: every class of
    errors.py derives from [app_commands.TransformerError]. *)
Definition is_AppCommandError (e : exn) : bool :=
  match e with
  | HostError _ _ b _ => b
  | NotAString _ | NotAnInteger _ | NotFloat _ | ParsingFailed _ _
  | InvalidVariadicArguments _ _ _ | VariadicArgsFailed _ _ _ _ => true
  | ValueError _ | TypeError _ | AttributeError _ => false
  end.

(** [isinstance(e, ValueError)] *)
Definition is_ValueError (e : exn) : bool :=
  match e with
  | ValueError _ => true
  | HostError _ _ _ b => b
  | _ => false
  end.

(** A computation that returns or raises. *)
Inductive result (A : Type) : Type :=
| Ok (a : A)
| Raise (e : exn).
Arguments Ok {A} a.
Arguments Raise {A} e.

#[global] Instance result_ret : MRet result := @Ok.
#[global] Instance result_bind : MBind result := fun A B f m =>
  match m with
  | Ok a => f a
  | Raise e => Raise e
  end.

(** *** InvalidVariadicArguments.__init__ and VariadicArgsFailed.__init__ *)

(** [o and n < o] *)
Definition below (n : nat) (o : option Z) : bool :=
  match o with
  | Some z => negb (z =? 0)%Z && (Z.of_nat n <? z)%Z
  | None => false
  end.

(** [o and n > o] *)
Definition above (n : nat) (o : option Z) : bool :=
  match o with
  | Some z => negb (z =? 0)%Z && (z <? Z.of_nat n)%Z
  | None => false
  end.

Definition InvalidVariadicArguments_init
    (argument : string) (received_arguments : list string)
    (min max : option Z) : exn :=
  let what :=
    if below (length received_arguments) min then "Too few"
    else if above (length received_arguments) max then "Too many"
    else "Too few" in
  InvalidVariadicArguments argument received_arguments
    (what +:+ " arguments. Expected " +:+ Py.str_of_optional_int min +:+
     " to " +:+ Py.str_of_optional_int max +:+ " arguments, got " +:+
     Py.str_of_int (Z.of_nat (length received_arguments)) +:+ ".").

Definition VariadicArgsFailed_init
    (argument : string) (received_arguments : list string)
    (errors : Dict.t exn) : exn :=
  VariadicArgsFailed argument received_arguments errors
    (Py.str_of_int (Z.of_nat (Dict.len errors)) +:+
     " arguments failed to be converted. Check the errors attribute.").

(** ** The host framework *)

(** What the code takes from discord.py and from the developer's own
    converters.
    - [World] is the state a conversion can read and change: the
      platform, the caches, whatever a converter object keeps.
    - [LIBRARY_BUILT_IN_TRANSFORMERS] is the table imported at
      converters.py:6, given by the [type] attribute of the transformer
      stored under each key.
    - [host_invoke c interaction value] is what calling converter [c]
      does, for every converter whose code is not in this repository:
      [c().convert(ctx, value)], [c().transform(interaction, value)] or
      [c(value)], according to the host class [c] derives from. The
      context [ctx] is [ContextWrapper(interaction)], a view of
      [interaction]. *)
Record Host : Type := {
  World : Type;
  Interaction : Type;
  LIBRARY_BUILT_IN_TRANSFORMERS : ValidConverter -> option AppCommandOptionType;
  host_invoke :
    ValidConverter -> Interaction -> string -> World -> result Py.value * World;
}.

(** *** Class relationships

    From the [class] statements of converters.py and of the host:
    [app_commands.Transformer], [app_commands.Transform] and
    [commands.Converter] are three unrelated classes; the classes of
    [discord.ext.commands] listed in [ExtCommandsConverter] derive from
    [commands.Converter], but for [commands.Range]. *)

Inductive host_base : Type :=
| commands_Converter | app_commands_Transformer | app_commands_Transform.

(** [issubclass(c, base)] for a class [c], and [issubclass(c.__class__,
    base)] for the instances [library_str_transformer] and [custom] with
    [is_class = false]. *)
Definition issubclass (c : ValidConverter) (base : host_base) : bool :=
  match base, c with
  | commands_Converter, commands Range => false
  | commands_Converter, commands _ => true
  | commands_Converter, custom k => derives_Converter k
  | app_commands_Transformer,
    (StringConverter | IntegerConverter | library_str_transformer) => true
  | app_commands_Transformer, custom k => derives_Transformer k
  | app_commands_Transform, (FloatConverter | BooleanConverter) => true
  | app_commands_Transform, custom k => derives_Transform k
  | _, _ => false
  end.

(** [inspect.isclass(c)] *)
Definition isclass (c : ValidConverter) : bool :=
  match c with
  | library_str_transformer | Union _ => false
  | custom k => is_class k
  | _ => true
  end.

(** Awaited calls: functions of the host's state. *)
Definition M (H : Host) (A : Type) : Type := World H -> result A * World H.

#[global] Instance M_ret (H : Host) : MRet (M H) := fun A a w => (Ok a, w).
#[global] Instance M_bind (H : Host) : MBind (M H) := fun A B f m w =>
  match m w with
  | (Ok a, w') => f a w'
  | (Raise e, w') => (Raise e, w')
  end.

Definition raise {H : Host} {A : Type} (e : exn) : M H A :=
  fun w => (Raise e, w).

(** ** converters.py: the two transformers of this package that the
    resolver reaches through [transform] *)

(** [StringConverter.transform]: [str(argument)] of a string does not
    raise. *)
Definition StringConverter_transform {H : Host}
    (interaction : Interaction H) (argument : string) : M H Py.value :=
  mret (Py.VStr argument).

Definition IntegerConverter_transform {H : Host}
    (interaction : Interaction H) (argument : string) : M H Py.value :=
  match Py.int argument with
  | Some z => mret (Py.VInt z)
  | None => raise (NotAnInteger argument)
  end.

(** ** utils.py *)

Module utils.

Definition _custom_is_subclass (to_check : ValidConverter) (classes : host_base) : bool :=
  if isclass to_check then issubclass to_check classes
  else issubclass to_check classes.

Definition converter_from_appcommandoptiontype
    (arg_type : AppCommandOptionType) : result (list ValidConverter) :=
  match arg_type with
  | opt_attachment => Raise (TypeError attachments_not_convertible)
  | opt_string => Ok [StringConverter]
  | opt_integer => Ok [IntegerConverter]
  | opt_number => Ok [FloatConverter]
  | opt_boolean => Ok [BooleanConverter]
  | opt_user => Ok [commands MemberConverter]
  | opt_role => Ok [commands RoleConverter]
  | opt_channel => Ok [commands GuildChannelConverter]
  | opt_mentionable =>
      Ok [commands MemberConverter; commands RoleConverter;
          commands UserConverter]
  | opt_subcommand | opt_subcommand_group =>
      Raise (TypeError (unknown_option_type arg_type))
  end.

Definition _unpack_union (maybe_union : ValidConverter) : list ValidConverter :=
  match maybe_union with
  | Union args => args
  | _ => []
  end.

(** The entries that converters.py itself puts into
    [BUILT_IN_TRANSFORMERS], before the host's table is merged over
    them. *)
Definition OWN_BUILT_IN_TRANSFORMERS (item : ValidConverter) : option ValidConverter :=
  match item with
  | discord Message => Some (commands MessageConverter)
  | discord Colour => Some (commands ColourConverter)
  | discord Emoji => Some (commands EmojiConverter)
  | discord PartialEmoji => Some (commands PartialEmojiConverter)
  | discord GuildSticker => Some (commands GuildStickerConverter)
  | discord ScheduledEvent => Some (commands ScheduledEventConverter)
  | discord Invite => Some (commands InviteConverter)
  | discord Object => Some (commands ObjectConverter)
  | discord Game => Some (commands GameConverter)
  | commands clean_content => Some library_str_transformer
  | commands Range => Some app_commands_Range
  | builtin py_bool => Some BooleanConverter
  | _ => None
  end.

(** [uitem in (discord.Member, discord.Role) or
     uitem in (discord.User, discord.Role)] *)
Definition mentionable_member (uitem : ValidConverter) : bool :=
  match uitem with
  | discord Member | discord Role | discord User => true
  | _ => false
  end.

Section WithHost.

Context (H : Host).

(** The part of the loop body of [_get_converters] below the union test:
    what an [item] that is no union adds to [valid_converters]. *)
Definition _get_converters_plain (item : ValidConverter) : result (list ValidConverter) :=
  match LIBRARY_BUILT_IN_TRANSFORMERS H item, OWN_BUILT_IN_TRANSFORMERS item with
  | None, None =>
      if isclass item then
        if issubclass item app_commands_Transform
           || issubclass item commands_Converter
        then Ok [item]
        else Raise (TypeError (expected_converter item))
      else Raise (TypeError (issubclass_arg_not_a_class item))
  | Some dpy_transformer, _ =>
      converter_from_appcommandoptiontype dpy_transformer
  | None, Some converter => Ok [converter]
  end.

(** One turn of the loop of [_get_converters]; [each] is the recursive
    call on the members of a union. *)
Fixpoint _get_converters_item (item : ValidConverter) : result (list ValidConverter) :=
  match item with
  | Union ((_ :: _) as union_items) =>
      if forallb mentionable_member union_items
      then Ok [commands MemberConverter; commands RoleConverter;
               commands UserConverter]
      else
        (fix each (l : list ValidConverter) : result (list ValidConverter) :=
           match l with
           | [] => Ok []
           | uitem :: rest =>
               found ← _get_converters_item uitem;
               more ← each rest;
               Ok (found ++ more)
           end) union_items
  | _ => _get_converters_plain item
  end.

(** [_get_converters]: the items are normalized in order and the pieces
    concatenated; the first [TypeError] ends the call. *)
Fixpoint _get_converters (converters : list ValidConverter) : result (list ValidConverter) :=
  match converters with
  | [] => Ok []
  | item :: rest =>
      found ← _get_converters_item item;
      more ← _get_converters rest;
      Ok (found ++ more)
  end.

(** [instance.transform(interaction, value)] *)
Definition transform (converter : ValidConverter)
    (interaction : Interaction H) (value : string) : M H Py.value :=
  match converter with
  | StringConverter => StringConverter_transform interaction value
  | IntegerConverter => IntegerConverter_transform interaction value
  | _ => host_invoke H converter interaction value
  end.

(** [try: converted_value = await call except expected as e: error = e].
    An exception of another class leaves the function. *)
Definition try_convert (call : M H Py.value) (expected : exn -> bool)
    (converted_value : Py.value) (error : option exn)
  : M H (Py.value * option exn) :=
  fun w =>
    match call w with
    | (Ok v, w') => (Ok (v, error), w')
    | (Raise e, w') =>
        if expected e then (Ok (converted_value, Some e), w')
        else (Raise e, w')
    end.

(** The loop of [_run_converters], from the values its three local
    variables have on entry. *)
Fixpoint _run_converters_loop (converters : list ValidConverter)
    (interaction : Interaction H) (value : string)
    (converted_value : Py.value) (used_converter : option ValidConverter)
    (error : option exn)
  : M H (Py.value * option ValidConverter * option exn) :=
  match converters with
  | [] => mret (converted_value, used_converter, error)
  | converter :: rest =>
      if Py.truthy converted_value
      then mret (converted_value, used_converter, error)
      else
        '(converted_value, error) ←
          (if _custom_is_subclass converter commands_Converter then
             try_convert (host_invoke H converter interaction value)
               is_BadArgument converted_value error
           else if _custom_is_subclass converter app_commands_Transformer then
             try_convert (transform converter interaction value)
               is_AppCommandError converted_value error
           else
             try_convert (host_invoke H converter interaction value)
               is_ValueError converted_value error);
        _run_converters_loop rest interaction value
          converted_value (Some converter) error
  end.

Definition _run_converters (converters : list ValidConverter)
    (interaction : Interaction H) (value : string)
  : M H (Py.value * option ValidConverter * option exn) :=
  _run_converters_loop converters interaction value Py.VNone None None.

End WithHost.

End utils.

(** ** converters.py: the parsers *)

Record ParseResult : Type := {
  argument : string;
  success : Dict.t (Py.value * option ValidConverter);
  failed : Dict.t (option ValidConverter);
  errors : Dict.t exn;
}.

(** [ParseResult.converted]: the converted values, in the order in which
    their tokens were first stored. *)
Definition converted (res : ParseResult) : list Py.value :=
  map fst (Dict.values (success res)).

(** What a parser's [transform] returns: a [ParseResult], or the
    [SequenceProxy] of the converted values. *)
Inductive transformed : Type :=
| Result (res : ParseResult)
| SequenceProxy (items : list Py.value).

Module StringParser.

Record t : Type := {
  split_by : string;
  converters : list ValidConverter;
  only_values : bool;
  fail_on_error : bool;
}.

Section WithHost.

Context (H : Host).

(** [StringParser.__init__]: fails with the [TypeError] of the
    normalizer. *)
Definition init (split_by : string) (converters : list ValidConverter)
    (only_values fail_on_error : bool) : result t :=
  converters ← utils._get_converters H converters;
  Ok {| split_by := split_by; converters := converters;
        only_values := only_values; fail_on_error := fail_on_error |}.

(** The three dictionaries that [transform] fills. *)
Definition maps : Type :=
  Dict.t (Py.value * option ValidConverter)
  * Dict.t (option ValidConverter) * Dict.t exn.

(** What one token's resolution writes into the dictionaries. *)
Definition record (value : string)
    (outcome : Py.value * option ValidConverter * option exn)
    (acc : maps) : maps :=
  let '(converted, converter, error) := outcome in
  let '(success, failed, value_errors) := acc in
  let '(success, failed) :=
    if Py.truthy converted
    then (Dict.set value (converted, converter) success, failed)
    else (success, Dict.set value converter failed) in
  let value_errors :=
    match error with
    | Some e => Dict.set value e value_errors
    | None => value_errors
    end in
  (success, failed, value_errors).

(** The [for value in argument.split(self.split_by)] loop. *)
Fixpoint loop (self : t) (interaction : Interaction H)
    (values : list string) (acc : maps) : M H maps :=
  match values with
  | [] => mret acc
  | value :: rest =>
      outcome ← utils._run_converters H (converters self) interaction value;
      loop self interaction rest (record value outcome acc)
  end.

Definition transform (self : t) (interaction : Interaction H)
    (argument : string) : M H transformed :=
  match Py.split argument (split_by self) with
  | None => raise (ValueError "empty separator")
  | Some values =>
      '(success, failed, value_errors) ←
        loop self interaction values (Dict.empty, Dict.empty, Dict.empty);
      if negb (Dict.truthy success)
         || fail_on_error self && Dict.truthy failed
      then raise (ParsingFailed argument value_errors)
      else
        let res := {| argument := argument; success := success;
                      failed := failed; errors := value_errors |} in
        if only_values self then mret (SequenceProxy (converted res))
        else mret (Result res)
  end.

End WithHost.

End StringParser.

Module VariadicArgs.

(** [base] holds the attributes inherited from [StringParser]. *)
Record t : Type := {
  min : option Z;
  max : option Z;
  base : StringParser.t;
}.

Section WithHost.

Context (H : Host).

(** [VariadicArgs.__init__]; [converters] is one converter ([inl]) or a
    list of them ([inr]). *)
Definition init (min max : option Z)
    (converters : ValidConverter + list ValidConverter)
    (split_by : string) : result t :=
  base ← StringParser.init H split_by
            (match converters with inl c => [c] | inr l => l end)
            false false;
  Ok {| min := min; max := max; base := base |}.

Definition transform (self : t) (interaction : Interaction H)
    (argument : string) : M H (list Py.value) :=
  match Py.split argument (StringParser.split_by (base self)) with
  | None => raise (ValueError "empty separator")
  | Some arguments =>
      fun w =>
        match StringParser.transform H (base self) interaction argument w with
        | (Raise (ParsingFailed _ e_errors), w') =>
            (Raise (VariadicArgsFailed_init argument arguments e_errors), w')
        | (Raise e, w') => (Raise e, w')
        | (Ok (SequenceProxy _), w') =>
            (Raise (AttributeError "success"), w')
        | (Ok (Result res), w') =>
            if negb (match arguments with [] => false | _ => true end)
               || below (length arguments) (min self)
               || above (length arguments) (max self)
            then (Raise (InvalidVariadicArguments_init argument arguments
                           (min self) (max self)), w')
            else if negb (Dict.truthy (success res))
                    || Dict.truthy (failed res)
                    || negb (Nat.eqb (Dict.len (success res)) (length arguments))
            then (Raise (VariadicArgsFailed_init argument arguments
                           (errors res)), w')
            else (Ok (converted res), w')
        end
  end.

End WithHost.

End VariadicArgs.

(** ** Observing a run

    The vocabulary in which the properties below speak about what the
    converters did: the call the resolver makes for a converter, the error
    class it catches around that call, and the outcomes of a row of
    calls. *)

Module run.

Section WithHost.

Context (H : Host).

(** The call [_run_converters] makes for [converter]. *)
Definition call (converter : ValidConverter)
    (interaction : Interaction H) (value : string) : M H Py.value :=
  if utils._custom_is_subclass converter commands_Converter then
    host_invoke H converter interaction value
  else if utils._custom_is_subclass converter app_commands_Transformer then
    utils.transform H converter interaction value
  else host_invoke H converter interaction value.

(** The error class of the [except] clause around that call. *)
Definition expected (converter : ValidConverter) : exn -> bool :=
  if utils._custom_is_subclass converter commands_Converter then is_BadArgument
  else if utils._custom_is_subclass converter app_commands_Transformer
  then is_AppCommandError
  else is_ValueError.

(** The converters called one after the other on [value], each in the
    state the one before left. *)
Fixpoint outcomes (converters : list ValidConverter)
    (interaction : Interaction H) (value : string) (w : World H)
  : list (result Py.value) * World H :=
  match converters with
  | [] => ([], w)
  | converter :: rest =>
      let '(o, w1) := call converter interaction value w in
      let '(os, w2) := outcomes rest interaction value w1 in
      (o :: os, w2)
  end.

(** A converter fails when it returns a falsy value or raises an error of
    the class the resolver catches. *)
Definition fails (converter : ValidConverter) (o : result Py.value) : bool :=
  match o with
  | Ok v => negb (Py.truthy v)
  | Raise e => expected converter e
  end.

Fixpoint all_fail (converters : list ValidConverter)
    (os : list (result Py.value)) : bool :=
  match converters, os with
  | [], [] => true
  | converter :: rest, o :: os' => fails converter o && all_fail rest os'
  | _, _ => false
  end.

Definition returned (o : result Py.value) : bool :=
  match o with Ok _ => true | Raise _ => false end.

(** Each token resolved in turn. *)
Fixpoint resolve_all (converters : list ValidConverter)
    (interaction : Interaction H) (values : list string)
  : M H (list (Py.value * option ValidConverter * option exn)) :=
  match values with
  | [] => mret []
  | value :: rest =>
      outcome ← utils._run_converters H converters interaction value;
      more ← resolve_all converters interaction rest;
      mret (outcome :: more)
  end.

(** What the resolutions of a row of tokens write into the parser's
    dictionaries. *)
Fixpoint record_all (values : list string)
    (outcomes : list (Py.value * option ValidConverter * option exn))
    (acc : StringParser.maps) : StringParser.maps :=
  match values, outcomes with
  | value :: rest, outcome :: more =>
      record_all rest more (StringParser.record value outcome acc)
  | _, _ => acc
  end.

(** The outcome of every call depends on the converter and the token
    alone, not on the state it is made in. *)
Definition state_independent (converters : list ValidConverter)
    (interaction : Interaction H) : Prop :=
  forall converter value w w',
    converter ∈ converters ->
    (call converter interaction value w).1
    = (call converter interaction value w').1.

End WithHost.

Definition keep_returned (acc : Py.value) (o : result Py.value) : Py.value :=
  match o with Ok v => v | Raise _ => acc end.

Definition keep_raised (acc : option exn) (o : result Py.value) : option exn :=
  match o with Raise e => Some e | Ok _ => acc end.

(** [value] stands at one place of [values] only. *)
Definition occurs_once (value : string) (values : list string) : Prop :=
  forall j1 j2 : nat,
    values !! j1 = Some value -> values !! j2 = Some value -> j1 = j2.

(** Some occurrence of [value] in [values] was resolved with an outcome
    that satisfies [P]. *)
Definition resolved_with
    (P : Py.value * option ValidConverter * option exn -> Prop)
    (value : string) (values : list string)
    (outcomes : list (Py.value * option ValidConverter * option exn)) : Prop :=
  exists (j : nat) o,
    values !! j = Some value /\ outcomes !! j = Some o /\ P o.

(** The value returned last, [None] when no call returned. *)
Definition last_returned (os : list (result Py.value)) : Py.value :=
  fold_left keep_returned os Py.VNone.

(** The error raised last, if any call raised. *)
Definition last_raised (os : list (result Py.value)) : option exn :=
  fold_left keep_raised os None.

End run.

(** ** What else the files declare *)

(** [APP_COMMAND_TYPE_TO_CONVERTER] of converters.py: the table of one
    converter per option type, kept beside
    [converter_from_appcommandoptiontype]. *)
Definition APP_COMMAND_TYPE_TO_CONVERTER
    (arg_type : AppCommandOptionType) : option ValidConverter :=
  match arg_type with
  | opt_string => Some StringConverter
  | opt_integer => Some IntegerConverter
  | opt_number => Some FloatConverter
  | opt_boolean => Some BooleanConverter
  | opt_user => Some (commands MemberConverter)
  | opt_role => Some (commands RoleConverter)
  | opt_channel => Some (commands GuildChannelConverter)
  | _ => None
  end.

(** [isinstance(e, InvalidVariadicArguments)]: [VariadicArgsFailed]
    derives from [InvalidVariadicArguments]. *)
Definition is_InvalidVariadicArguments (e : exn) : bool :=
  match e with
  | InvalidVariadicArguments _ _ _ | VariadicArgsFailed _ _ _ _ => true
  | _ => false
  end.

(** An object the resolver can call: neither a union nor one of the
    builtin or discord classes that only name a converter. *)
Definition callable_converter (c : ValidConverter) : bool :=
  match c with
  | Union _ | builtin _ | discord _ => false
  | _ => true
  end.

(** What the turn of the normalizer's loop for [item] adds, when it adds
    something: at least one object, and only objects the resolver can
    call. *)
Definition adds_callables (H : Host) (item : ValidConverter) : Prop :=
  forall found,
    utils._get_converters_item H item = Ok found ->
    found <> [] /\ forallb callable_converter found = true.


(** ** Hosts to run the code on *)

(** The table of discord.py 2.x. *)
Definition discord_py_table (item : ValidConverter) : option AppCommandOptionType :=
  match item with
  | builtin py_str => Some opt_string
  | builtin py_int => Some opt_integer
  | builtin py_float => Some opt_number
  | builtin py_bool => Some opt_boolean
  | discord User | discord Member => Some opt_user
  | discord Role => Some opt_role
  | discord Attachment => Some opt_attachment
  | discord (AppCommandChannel | AppCommandThread | GuildChannel | Thread
            | StageChannel | VoiceChannel | TextChannel | CategoryChannel
            | ForumChannel) => Some opt_channel
  | _ => None
  end.

Definition MemberNotFound (argument : string) : exn :=
  HostError ("MemberNotFound: " +:+ argument) true false false.

(** A developer's converter class that keeps count of its calls. *)
Definition Once : ValidConverter :=
  custom {| custom_name := "Once"; is_class := true;
            derives_Converter := true; derives_Transformer := false;
            derives_Transform := false |}.

(** A host whose state is the number of calls [Once.convert] has served.
    [Once.convert] returns its argument on the first call and raises
    [BadArgument] from then on; [MemberConverter] finds nobody; [str]
    called directly returns its argument, [int] raises [ValueError] on what
    is no integer literal. *)
Definition sample_host : Host := {|
  World := nat;
  Interaction := unit;
  LIBRARY_BUILT_IN_TRANSFORMERS := discord_py_table;
  host_invoke := fun converter _ value calls =>
    match converter with
    | custom k =>
        if String.eqb (custom_name k) "Once" then
          match calls with
          | O => (Ok (Py.VStr value), S calls)
          | S _ => (Raise (HostError "BadArgument" true false false), S calls)
          end
        else (Raise (TypeError (expected_converter converter)), calls)
    | commands MemberConverter => (Raise (MemberNotFound value), calls)
    | builtin py_str => (Ok (Py.VStr value), calls)
    | builtin py_int =>
        match Py.int value with
        | Some z => (Ok (Py.VInt z), calls)
        | None => (Raise (ValueError "invalid literal for int()"), calls)
        end
    | _ => (Raise (TypeError (expected_converter converter)), calls)
    end;
|}.

(** A developer's converter class that [sample_host] does not know. *)
Definition Unknown : ValidConverter :=
  custom {| custom_name := "Unknown"; is_class := true;
            derives_Converter := true; derives_Transformer := false;
            derives_Transform := false |}.

(** A developer's class that derives from [app_commands.Transformer]
    alone. *)
Definition OnlyTransformer : custom_class :=
  {| custom_name := "OnlyTransformer"; is_class := true;
     derives_Converter := false; derives_Transformer := true;
     derives_Transform := false |}.

(** Parsers to run on [sample_host]. *)
Definition integer_parser : StringParser.t :=
  {| StringParser.split_by := " ";
     StringParser.converters := [IntegerConverter];
     StringParser.only_values := false;
     StringParser.fail_on_error := false |}.

Definition string_parser : StringParser.t :=
  {| StringParser.split_by := " ";
     StringParser.converters := [StringConverter];
     StringParser.only_values := false;
     StringParser.fail_on_error := false |}.

Definition two_to_three : VariadicArgs.t :=
  {| VariadicArgs.min := Some 2%Z; VariadicArgs.max := Some 3%Z;
     VariadicArgs.base := string_parser |}.

(** * Properties *)

(** ** The builtins on a few inputs *)

Example split_examples :
  Py.split "a b" " " = Some ["a"; "b"]
  /\ Py.split "a  b " " " = Some ["a"; ""; "b"; ""]
  /\ Py.split "" " " = Some [""]
  /\ Py.split "a--b-c" "--" = Some ["a"; "b-c"]
  /\ Py.split "aaa" "aa" = Some [""; "a"]
  /\ Py.split "a b" "" = None.
Proof. repeat split; reflexivity. Qed.

Example int_examples :
  Py.int "1" = Some 1%Z
  /\ Py.int " -12_3 " = Some (-123)%Z
  /\ Py.int "+07" = Some 7%Z
  /\ Py.int "x" = None
  /\ Py.int "" = None
  /\ Py.int "1__2" = None
  /\ Py.int "1_" = None
  /\ Py.int "- 1" = None.
Proof. repeat split; reflexivity. Qed.

(** The split of an argument is never empty, so the [not arguments] test
    of [VariadicArgs.transform] never fires. *)
Lemma split_nonempty argument sep arguments :
  Py.split argument sep = Some arguments -> arguments <> [].
Proof.
  unfold Py.split. destruct sep as [|c sep]; [discriminate|].
  intros [= <-]. generalize (String c sep) as sp, 0 as skip, "" as cur.
  induction argument as [|a rest IH]; intros sp skip cur;
    cbn [Py.split_go]; [done|].
  destruct skip; [|apply IH].
  destruct (String.prefix sp (String a rest)); [done|apply IH].
Qed.

(** ** The single-value resolver *)

Lemma bind_run {H : Host} {A B : Type} (m : M H A) (f : A -> M H B) (w : World H) :
  (m ≫= f) w
  = match m w with
    | (Ok a, w') => f a w'
    | (Raise e, w') => (Raise e, w')
    end.
Proof. reflexivity. Qed.

Section Resolver.

Context (H : Host).

Implicit Types (converters pre post : list ValidConverter).
Implicit Types (interaction : Interaction H) (value : string) (w : World H).

(** One turn of the resolver's loop is the call of [run.call] guarded by
    the class of [run.expected]. *)
Lemma loop_cons converter rest interaction value cv used error w :
  Py.truthy cv = false ->
  utils._run_converters_loop H (converter :: rest) interaction value cv used error w
  = match run.call H converter interaction value w with
    | (Ok v, w') =>
        utils._run_converters_loop H rest interaction value v (Some converter) error w'
    | (Raise e, w') =>
        if run.expected converter e
        then utils._run_converters_loop H rest interaction value cv
               (Some converter) (Some e) w'
        else (Raise e, w')
    end.
Proof.
  intros Hcv. cbn [utils._run_converters_loop]. rewrite Hcv, bind_run.
  unfold run.call, run.expected, utils.try_convert.
  destruct (utils._custom_is_subclass converter commands_Converter);
    [|destruct (utils._custom_is_subclass converter app_commands_Transformer)].
  2: destruct (utils.transform H converter interaction value w) as [[v|e] w'].
  1, 4: destruct (host_invoke H converter interaction value w) as [[v|e] w'].
  all: try reflexivity.
  all: match goal with |- context [if ?b then _ else _] => destruct b end;
    reflexivity.
Qed.

(** Once a truthy value is held, no further converter is called. *)
Lemma loop_break converters interaction value cv used error w :
  Py.truthy cv = true ->
  utils._run_converters_loop H converters interaction value cv used error w
  = (Ok (cv, used, error), w).
Proof.
  intros Hcv. destruct converters as [|c rest]; [reflexivity|].
  cbn [utils._run_converters_loop]. rewrite Hcv. reflexivity.
Qed.

Lemma all_fail_falsy converters os cv :
  run.all_fail converters os = true ->
  Py.truthy cv = false ->
  Py.truthy (fold_left run.keep_returned os cv) = false.
Proof.
  revert os cv. induction converters as [|c rest IH]; intros [|o os] cv Hall Hcv;
    try discriminate; [exact Hcv|].
  cbn in Hall. apply andb_prop in Hall as [Ho Hrest].
  cbn [fold_left]. apply (IH os); [exact Hrest|].
  destruct o as [v|e]; cbn in *; [|exact Hcv].
  now apply negb_true_iff.
Qed.

(** The loop over converters that all fail: every one of them is called,
    the value is the one returned last, the converter the last of the
    list, the error the one raised last. *)
Lemma loop_all_fail converters interaction value cv used error w os w' :
  run.outcomes H converters interaction value w = (os, w') ->
  run.all_fail converters os = true ->
  Py.truthy cv = false ->
  utils._run_converters_loop H converters interaction value cv used error w
  = (Ok (fold_left run.keep_returned os cv,
         match last converters with Some c => Some c | None => used end,
         fold_left run.keep_raised os error), w').
Proof.
  revert cv used error w os.
  induction converters as [|c rest IH]; intros cv used error w os Hos Hall Hcv.
  - cbn in Hos. injection Hos as <- <-. reflexivity.
  - cbn [run.outcomes] in Hos. rewrite loop_cons by exact Hcv.
    destruct (run.call H c interaction value w) as [o w1].
    destruct (run.outcomes H rest interaction value w1) as [os' w2] eqn:Hrest.
    injection Hos as <- <-.
    cbn in Hall. apply andb_prop in Hall as [Ho Hall].
    destruct o as [v|e]; cbn in Ho.
    + apply negb_true_iff in Ho.
      rewrite (IH v (Some c) error w1 os' Hrest Hall Ho).
      cbn [fold_left run.keep_returned run.keep_raised].
      rewrite last_cons. destruct (last rest); reflexivity.
    + rewrite Ho.
      rewrite (IH cv (Some c) (Some e) w1 os' Hrest Hall Hcv).
      cbn [fold_left run.keep_returned run.keep_raised].
      rewrite last_cons. destruct (last rest); reflexivity.
Qed.

(** The loop over converters of which [c] is the first to succeed. *)
Lemma loop_first_success pre c post interaction value cv used error w os w1 v w2 :
  run.outcomes H pre interaction value w = (os, w1) ->
  run.all_fail pre os = true ->
  Py.truthy cv = false ->
  run.call H c interaction value w1 = (Ok v, w2) ->
  Py.truthy v = true ->
  utils._run_converters_loop H (pre ++ c :: post) interaction value cv used error w
  = (Ok (v, Some c, fold_left run.keep_raised os error), w2).
Proof.
  revert cv used error w os.
  induction pre as [|p pre IH]; intros cv used error w os Hos Hall Hcv Hc Hv.
  - cbn in Hos. injection Hos as <- <-. cbn [app fold_left].
    rewrite loop_cons by exact Hcv. rewrite Hc. now apply loop_break.
  - cbn [run.outcomes] in Hos. cbn [app]. rewrite loop_cons by exact Hcv.
    destruct (run.call H p interaction value w) as [o w'].
    destruct (run.outcomes H pre interaction value w') as [os' w''] eqn:Hrest.
    injection Hos as <- <-.
    cbn in Hall. apply andb_prop in Hall as [Ho Hall].
    destruct o as [v'|e]; cbn in Ho.
    + apply negb_true_iff in Ho.
      now rewrite (IH v' (Some p) error w' os' Hrest Hall Ho Hc Hv).
    + rewrite Ho.
      now rewrite (IH cv (Some p) (Some e) w' os' Hrest Hall Hcv Hc Hv).
Qed.

Lemma last_raised_None os error :
  fold_left run.keep_raised os error = None
  <-> error = None /\ forallb run.returned os = true.
Proof.
  revert error. induction os as [|o os IH]; intros error; cbn.
  - tauto.
  - rewrite IH. destruct o; cbn; intuition congruence.
Qed.

Lemma last_returned_None os cv :
  (forall o, o ∈ os -> run.returned o = false) ->
  fold_left run.keep_returned os cv = cv.
Proof.
  revert cv. induction os as [|o os IH]; intros cv Hno; [reflexivity|].
  cbn [fold_left]. rewrite IH.
  - specialize (Hno o (list_elem_of_here _ _)). destruct o; [discriminate|reflexivity].
  - intros o' Ho'. apply Hno. now apply list_elem_of_further.
Qed.

Lemma raised_kept os error :
  forallb run.returned os = true ->
  fold_left run.keep_raised os error = error.
Proof.
  induction os as [|o os IH]; intros Hret; [reflexivity|].
  cbn in *. apply andb_prop in Hret as [Ho Hret].
  destruct o; [now apply IH|discriminate].
Qed.

Lemma outcomes_app pre post interaction value w :
  run.outcomes H (pre ++ post) interaction value w
  = let '(os1, w1) := run.outcomes H pre interaction value w in
    let '(os2, w2) := run.outcomes H post interaction value w1 in
    (os1 ++ os2, w2).
Proof.
  revert w. induction pre as [|p pre IH]; intros w; cbn [app run.outcomes].
  - now destruct (run.outcomes H post interaction value w).
  - destruct (run.call H p interaction value w) as [o w']. rewrite IH.
    destruct (run.outcomes H pre interaction value w') as [os1 w1].
    now destruct (run.outcomes H post interaction value w1).
Qed.

Lemma all_fail_app pre post os1 os2 :
  run.all_fail pre os1 = true ->
  run.all_fail post os2 = true ->
  run.all_fail (pre ++ post) (os1 ++ os2) = true.
Proof.
  revert os1. induction pre as [|p pre IH]; intros [|o os1] H1 H2;
    try discriminate; [exact H2|].
  cbn in *. apply andb_prop in H1 as [Ho H1]. rewrite Ho. now apply IH.
Qed.

(** C1 (amended). When the converters before [c] all fail and [c] then
    returns a truthy value, the resolver stops at [c]: it returns that
    value and [c], in the state [c] left, whatever converters follow. The
    error component is the error raised last by the converters before
    [c]; it is [None] exactly when none of them raised. *)
Theorem run_converters_first_success
    pre c post interaction value w os w1 v w2 :
  run.outcomes H pre interaction value w = (os, w1) ->
  run.all_fail pre os = true ->
  run.call H c interaction value w1 = (Ok v, w2) ->
  Py.truthy v = true ->
  utils._run_converters H (pre ++ c :: post) interaction value w
  = (Ok (v, Some c, run.last_raised os), w2)
  /\ (run.last_raised os = None <-> forallb run.returned os = true).
Proof.
  intros Hos Hall Hc Hv. split.
  - unfold utils._run_converters, run.last_raised.
    now apply loop_first_success with (w1 := w1).
  - unfold run.last_raised. rewrite last_raised_None. tauto.
Qed.

(** The resolver on converters that all fail. *)
Lemma all_fail_triple converters interaction value w os w' :
  run.outcomes H converters interaction value w = (os, w') ->
  run.all_fail converters os = true ->
  utils._run_converters H converters interaction value w
  = (Ok (run.last_returned os, last converters, run.last_raised os), w')
  /\ Py.truthy (run.last_returned os) = false.
Proof.
  intros Hos Hall. split.
  - unfold utils._run_converters.
    rewrite (loop_all_fail converters interaction value Py.VNone None None
               w os w' Hos Hall eq_refl).
    now destruct (last converters).
  - now apply (all_fail_falsy converters).
Qed.

(** C2 (amended). When every converter of the list fails, the resolver
    returns the value returned last (a falsy one, [None] when every
    converter raised), the last converter of the list and the error
    raised last. *)
Theorem run_converters_all_fail converters interaction value w os w' :
  run.outcomes H converters interaction value w = (os, w') ->
  run.all_fail converters os = true ->
  utils._run_converters H converters interaction value w
  = (Ok (run.last_returned os, last converters, run.last_raised os), w')
  /\ Py.truthy (run.last_returned os) = false
  /\ ((forall o, o ∈ os -> run.returned o = false) ->
      run.last_returned os = Py.VNone).
Proof.
  intros Hos Hall.
  destruct (all_fail_triple _ _ _ _ _ _ Hos Hall) as [Hrun Hfalsy].
  split; [exact Hrun|]. split; [exact Hfalsy|].
  apply last_returned_None.
Qed.

(** C3 (amended). When no converter succeeds, the error the resolver
    hands back is the one raised last: if [c] raises [e] and no converter
    after [c] raises, the triple carries [e], whatever the converters
    before [c] raised, and so does the parser's error mapping for that
    token. *)
Theorem run_converters_reports_last_error
    pre c post interaction value w os1 w1 e w2 os2 w3 :
  run.outcomes H pre interaction value w = (os1, w1) ->
  run.all_fail pre os1 = true ->
  run.call H c interaction value w1 = (Raise e, w2) ->
  run.expected c e = true ->
  run.outcomes H post interaction value w2 = (os2, w3) ->
  run.all_fail post os2 = true ->
  forallb run.returned os2 = true ->
  exists v,
    Py.truthy v = false
    /\ utils._run_converters H (pre ++ c :: post) interaction value w
       = (Ok (v, last (c :: post), Some e), w3)
    /\ forall self,
         StringParser.converters self = pre ++ c :: post ->
         StringParser.loop H self interaction [value]
           (Dict.empty, Dict.empty, Dict.empty) w
         = (Ok (Dict.empty, [(value, last (c :: post))], [(value, e)]), w3).
Proof.
  intros Hpre Hfpre Hc He Hpost Hfpost Hret.
  assert (Hos : run.outcomes H (pre ++ c :: post) interaction value w
                = (os1 ++ Raise e :: os2, w3)).
  { rewrite outcomes_app, Hpre. cbn [run.outcomes]. now rewrite Hc, Hpost. }
  assert (Hall : run.all_fail (pre ++ c :: post) (os1 ++ Raise e :: os2) = true).
  { apply all_fail_app; [exact Hfpre|]. cbn. now rewrite He, Hfpost. }
  destruct (all_fail_triple _ _ _ _ _ _ Hos Hall) as (Hrun & Hfalsy).
  assert (Herr : run.last_raised (os1 ++ Raise e :: os2) = Some e).
  { unfold run.last_raised. rewrite fold_left_app. cbn [fold_left run.keep_raised].
    now apply raised_kept. }
  rewrite Herr, last_app in Hrun.
  assert (Hlast : match last (c :: post) with
                  | Some y => Some y
                  | None => last pre
                  end = last (c :: post)).
  { rewrite last_cons. now destruct (last post). }
  rewrite Hlast in Hrun. clear Hlast.
  exists (run.last_returned (os1 ++ Raise e :: os2)).
  split; [exact Hfalsy|]. split.
  - exact Hrun.
  - intros self Hself. cbn [StringParser.loop]. rewrite bind_run, Hself, Hrun.
    cbn. now rewrite Hfalsy.
Qed.

End Resolver.

(** ** Dictionaries *)

Section DictFacts.

Context {V : Type}.

Implicit Types (d : Dict.t V) (k : string) (v : V).

Lemma mem_set k k' v d :
  Dict.mem k (Dict.set k' v d) = String.eqb k k' || Dict.mem k d.
Proof.
  unfold Dict.mem. induction d as [|[k0 v0] d IH]; cbn.
  - now destruct (String.eqb k k').
  - destruct (String.eqb k' k0) eqn:E0; cbn.
    + apply String.eqb_eq in E0. subst k0.
      now destruct (String.eqb k k').
    + destruct (String.eqb k k0) eqn:E1; [now rewrite orb_true_r|exact IH].
Qed.

Lemma mem_keys k d : Dict.mem k d = true <-> k ∈ Dict.keys d.
Proof.
  unfold Dict.mem, Dict.keys. induction d as [|[k0 v0] d IH]; cbn.
  - split; [discriminate|]. intros Hin. inversion Hin.
  - rewrite elem_of_cons. destruct (String.eqb k k0) eqn:E.
    + apply String.eqb_eq in E. tauto.
    + apply String.eqb_neq in E. tauto.
Qed.

Lemma keys_set k v d :
  Dict.keys (Dict.set k v d)
  = if Dict.mem k d then Dict.keys d else Dict.keys d ++ [k].
Proof.
  unfold Dict.mem, Dict.keys. induction d as [|[k0 v0] d IH]; cbn; [reflexivity|].
  destruct (String.eqb k k0) eqn:E; cbn.
  - apply String.eqb_eq in E. now subst.
  - rewrite IH. now destruct (Dict.get k d).
Qed.

Lemma keys_set_NoDup k v d :
  NoDup (Dict.keys d) -> NoDup (Dict.keys (Dict.set k v d)).
Proof.
  intros Hd. rewrite keys_set. destruct (Dict.mem k d) eqn:E; [exact Hd|].
  apply NoDup_app. split; [exact Hd|]. split; [|apply NoDup_singleton].
  intros x Hx Hk. apply list_elem_of_singleton in Hk as ->.
  apply mem_keys in Hx. congruence.
Qed.

Lemma truthy_len d : Dict.truthy d = negb (Nat.eqb (Dict.len d) 0).
Proof. now destruct d. Qed.

End DictFacts.

(** ** The multi-value parser *)

Section Parser.

Context (H : Host).

Implicit Types (self : StringParser.t) (interaction : Interaction H).
Implicit Types (value argument : string) (values : list string) (w : World H).
Implicit Types (outcomes : list (Py.value * option ValidConverter * option exn)).

Lemma loop_resolve_all self interaction values acc w :
  StringParser.loop H self interaction values acc w
  = match run.resolve_all H (StringParser.converters self) interaction values w with
    | (Ok outcomes, w') => (Ok (run.record_all values outcomes acc), w')
    | (Raise e, w') => (Raise e, w')
    end.
Proof.
  revert acc w. induction values as [|value rest IH]; intros acc w; [reflexivity|].
  cbn [StringParser.loop run.resolve_all]. rewrite !bind_run.
  destruct (utils._run_converters H _ interaction value w) as [[o|e] w1];
    [|reflexivity].
  rewrite IH, bind_run.
  now destruct (run.resolve_all H _ interaction rest w1) as [[os|e] w2].
Qed.

Lemma resolve_all_length converters interaction values w outcomes w' :
  run.resolve_all H converters interaction values w = (Ok outcomes, w') ->
  length outcomes = length values.
Proof.
  revert w outcomes. induction values as [|value rest IH]; intros w outcomes.
  - cbn. now intros [= <- <-].
  - cbn [run.resolve_all]. rewrite bind_run.
    destruct (utils._run_converters H _ interaction value w) as [[o|e] w1];
      [|discriminate].
    rewrite bind_run.
    destruct (run.resolve_all H _ interaction rest w1) as [[os|e] w2] eqn:Hrest;
      [|discriminate].
    intros [= <- <-]. cbn. f_equal. now apply (IH w1).
Qed.

(** Every outcome of [resolve_all] is what the resolver returned for the
    token at that place, in some state. *)
Lemma resolve_all_lookup converters interaction values w outcomes w' j value o :
  run.resolve_all H converters interaction values w = (Ok outcomes, w') ->
  values !! j = Some value ->
  outcomes !! j = Some o ->
  exists wj wj',
    utils._run_converters H converters interaction value wj = (Ok o, wj').
Proof.
  revert w outcomes j. induction values as [|v rest IH]; intros w outcomes j.
  - intros _ Hj. destruct j; discriminate.
  - cbn [run.resolve_all]. rewrite bind_run.
    destruct (utils._run_converters H _ interaction v w) as [[o1|e] w1] eqn:Hrun;
      [|discriminate].
    rewrite bind_run.
    destruct (run.resolve_all H _ interaction rest w1) as [[os|e] w2] eqn:Hrest;
      [|discriminate].
    intros [= <- <-] Hv Ho. destruct j as [|j]; cbn in Hv, Ho.
    + injection Hv as ->. injection Ho as ->. eauto.
    + now apply (IH w1 os j).
Qed.

Lemma resolved_with_cons P value v rest o more :
  run.resolved_with P value (v :: rest) (o :: more)
  <-> (value = v /\ P o) \/ run.resolved_with P value rest more.
Proof.
  unfold run.resolved_with. split.
  - intros ([|j] & o' & Hv & Ho & HP); cbn in Hv, Ho.
    + left. split; congruence.
    + right. eauto.
  - intros [[-> HP]|(j & o' & Hv & Ho & HP)].
    + exists 0, o. auto.
    + exists (S j), o'. auto.
Qed.

Lemma resolved_with_nil P value outcomes :
  run.resolved_with P value [] outcomes <-> False.
Proof. split; [|tauto]. intros ([|j] & o & Hv & _); discriminate. Qed.

(** What the dictionaries hold after a row of resolutions. *)
Lemma record_all_mem values outcomes s f e s' f' e' k :
  length outcomes = length values ->
  run.record_all values outcomes (s, f, e) = (s', f', e') ->
  (Dict.mem k s' = true <->
     Dict.mem k s = true
     \/ run.resolved_with (fun o => Py.truthy o.1.1 = true) k values outcomes)
  /\ (Dict.mem k f' = true <->
     Dict.mem k f = true
     \/ run.resolved_with (fun o => Py.truthy o.1.1 = false) k values outcomes)
  /\ (Dict.mem k e' = true <->
     Dict.mem k e = true
     \/ run.resolved_with (fun o => is_Some o.2) k values outcomes).
Proof.
  revert outcomes s f e.
  induction values as [|v rest IH]; intros [|o more] s f e Hlen; try discriminate.
  - cbn. intros [= <- <- <-]. rewrite !resolved_with_nil. tauto.
  - cbn [run.record_all]. destruct o as [[cv c] err].
    injection Hlen as Hlen. rewrite !resolved_with_cons.
    unfold StringParser.record. cbn [fst snd].
    destruct (Py.truthy cv) eqn:Hcv; destruct err as [x|]; intros Hrec;
      destruct (IH _ _ _ _ Hlen Hrec) as (Hs & Hf & He);
      rewrite Hs, Hf, He, ?mem_set, ?orb_true_iff, ?String.eqb_eq;
      unfold is_Some; cbn; intuition (eauto; try congruence).
    all: match goal with Hx : ex _ |- _ => destruct Hx; discriminate end.
Qed.

(** An error in the resolver's triple was raised by one of the
    converters. *)
Lemma loop_error_raised converters interaction value cv used error w cv' used' e w' :
  utils._run_converters_loop H converters interaction value cv used error w
  = (Ok (cv', used', Some e), w') ->
  error = Some e
  \/ exists c w1 w2,
       c ∈ converters
       /\ run.call H c interaction value w1 = (Raise e, w2)
       /\ run.expected c e = true.
Proof.
  revert cv used error w.
  induction converters as [|c rest IH]; intros cv used error w.
  - cbn. intros [= <- <- <- <-]. now left.
  - destruct (Py.truthy cv) eqn:Hcv.
    + rewrite loop_break by exact Hcv. intros [= <- <- <- <-]. now left.
    + rewrite loop_cons by exact Hcv.
      destruct (run.call H c interaction value w) as [[v|x] w1] eqn:Hc.
      * intros Hloop. destruct (IH _ _ _ _ Hloop) as [->|(c' & wa & wb & Hin & Hr)].
        -- now left.
        -- right. exists c', wa, wb. split; [now apply list_elem_of_further|exact Hr].
      * destruct (run.expected c x) eqn:Hx; [|discriminate].
        intros Hloop. destruct (IH _ _ _ _ Hloop) as [[= ->]|(c' & wa & wb & Hin & Hr)].
        -- right. exists c, w, w1. split; [apply list_elem_of_here|]. now split.
        -- right. exists c', wa, wb. split; [now apply list_elem_of_further|exact Hr].
Qed.

(** With converters whose outcome does not depend on the state, the
    resolver's triple does not depend on it either. *)
Lemma loop_state_independent converters interaction value cv used error w w' :
  run.state_independent H converters interaction ->
  (utils._run_converters_loop H converters interaction value cv used error w).1
  = (utils._run_converters_loop H converters interaction value cv used error w').1.
Proof.
  revert cv used error w w'.
  induction converters as [|c rest IH]; intros cv used error w w' Hind;
    [reflexivity|].
  assert (Hrest : run.state_independent H rest interaction).
  { intros c' v wa wb Hin. apply Hind. now apply list_elem_of_further. }
  destruct (Py.truthy cv) eqn:Hcv.
  - now rewrite !loop_break by exact Hcv.
  - rewrite !loop_cons by exact Hcv.
    pose proof (Hind c value w w' (list_elem_of_here _ _)) as Hc.
    destruct (run.call H c interaction value w) as [o1 w1].
    destruct (run.call H c interaction value w') as [o2 w2].
    cbn in Hc. subst o2. destruct o1 as [v|x].
    + now apply IH.
    + destruct (run.expected c x); [now apply IH|reflexivity].
Qed.

(** [transform] once the loop over the tokens has come to its end. *)
Lemma transform_after_loop self interaction argument w values s f e w' :
  Py.split argument (StringParser.split_by self) = Some values ->
  StringParser.loop H self interaction values
    (Dict.empty, Dict.empty, Dict.empty) w = (Ok (s, f, e), w') ->
  StringParser.transform H self interaction argument w
  = if negb (Dict.truthy s) || StringParser.fail_on_error self && Dict.truthy f
    then (Raise (ParsingFailed argument e), w')
    else
      let res := {| argument := argument; success := s;
                    failed := f; errors := e |} in
      (Ok (if StringParser.only_values self
           then SequenceProxy (converted res) else Result res), w').
Proof.
  intros Hsplit Hloop. unfold StringParser.transform.
  rewrite Hsplit, bind_run, Hloop.
  destruct (negb (Dict.truthy s) || _); [reflexivity|].
  now destruct (StringParser.only_values self).
Qed.

Lemma transform_Result_inv self interaction argument w res w' :
  StringParser.transform H self interaction argument w = (Ok (Result res), w') ->
  exists values,
    Py.split argument (StringParser.split_by self) = Some values
    /\ StringParser.loop H self interaction values
         (Dict.empty, Dict.empty, Dict.empty) w
       = (Ok (success res, failed res, errors res), w').
Proof.
  unfold StringParser.transform.
  destruct (Py.split argument (StringParser.split_by self)) as [values|];
    [|discriminate].
  rewrite bind_run.
  destruct (StringParser.loop H self interaction values _ w)
    as [[[[s f] e]|x] w1] eqn:Hloop; [|discriminate].
  destruct (negb (Dict.truthy s) || _); [discriminate|].
  destruct (StringParser.only_values self); [discriminate|].
  intros [= <- <-]. exists values. split; [reflexivity|exact Hloop].
Qed.

(** C4 (amended). When [transform] returns a [ParseResult], every token of
    the split argument is a key of [success] or of [failed]: of
    [success] when one of its occurrences converted, of [failed] when one
    of them did not. It is a key of exactly one of the two when it occurs
    once, or when the outcome of the converters does not depend on the
    state they are called in. It is a key of [errors] only if a converter
    raised an error of its expected class on that token. *)
Theorem transform_files_every_token self interaction argument w res w' :
  StringParser.transform H self interaction argument w = (Ok (Result res), w') ->
  exists values outcomes,
    Py.split argument (StringParser.split_by self) = Some values
    /\ run.resolve_all H (StringParser.converters self) interaction values w
       = (Ok outcomes, w')
    /\ forall value,
         value ∈ values ->
         (Dict.mem value (success res) = true
          \/ Dict.mem value (failed res) = true)
         /\ (Dict.mem value (success res) = true <->
             run.resolved_with (fun o => Py.truthy o.1.1 = true)
               value values outcomes)
         /\ (Dict.mem value (failed res) = true <->
             run.resolved_with (fun o => Py.truthy o.1.1 = false)
               value values outcomes)
         /\ (run.occurs_once value values
             \/ run.state_independent H (StringParser.converters self) interaction ->
             (Dict.mem value (success res) = true <->
              Dict.mem value (failed res) = false))
         /\ (Dict.mem value (errors res) = true ->
             exists c w1 e w2,
               c ∈ StringParser.converters self
               /\ run.call H c interaction value w1 = (Raise e, w2)
               /\ run.expected c e = true).
Proof.
  intros Htr. apply transform_Result_inv in Htr as (values & Hsplit & Hloop).
  rewrite loop_resolve_all in Hloop.
  destruct (run.resolve_all H _ interaction values w) as [[outcomes|x] w1] eqn:Hres;
    [|discriminate].
  injection Hloop as Hrec <-.
  exists values, outcomes. split; [exact Hsplit|]. split; [exact Hres|].
  intros value Hin.
  pose proof (resolve_all_length _ _ _ _ _ _ Hres) as Hlen.
  destruct (record_all_mem _ _ _ _ _ _ _ _ value Hlen Hrec) as (Hs & Hf & He).
  change (Dict.mem value Dict.empty = true) with (false = true) in Hs, Hf, He.
  assert (Hs' : Dict.mem value (success res) = true <->
                run.resolved_with (fun o => Py.truthy o.1.1 = true)
                  value values outcomes)
    by (rewrite Hs; intuition discriminate).
  assert (Hf' : Dict.mem value (failed res) = true <->
                run.resolved_with (fun o => Py.truthy o.1.1 = false)
                  value values outcomes)
    by (rewrite Hf; intuition discriminate).
  assert (Hone : Dict.mem value (success res) = true
                 \/ Dict.mem value (failed res) = true).
  { apply list_elem_of_lookup in Hin as [j Hj].
    destruct (lookup_lt_is_Some_2 outcomes j) as [o Ho].
    { rewrite Hlen. now apply lookup_lt_Some in Hj. }
    destruct (Py.truthy o.1.1) eqn:Ht.
    - left. apply Hs'. now exists j, o.
    - right. apply Hf'. now exists j, o. }
  split; [exact Hone|]. split; [exact Hs'|]. split; [exact Hf'|]. split.
  - intros Hcond. split.
    + intros Hsucc. apply not_true_is_false. intros Hfail.
      apply Hs' in Hsucc as (j1 & o1 & Hv1 & Ho1 & Ht1).
      apply Hf' in Hfail as (j2 & o2 & Hv2 & Ho2 & Ht2).
      enough (o1 = o2) by congruence.
      destruct Hcond as [Honce|Hind].
      * specialize (Honce j1 j2 Hv1 Hv2) as ->. congruence.
      * destruct (resolve_all_lookup _ _ _ _ _ _ _ _ _ Hres Hv1 Ho1) as (wa & wa' & Ha).
        destruct (resolve_all_lookup _ _ _ _ _ _ _ _ _ Hres Hv2 Ho2) as (wb & wb' & Hb).
        pose proof (loop_state_independent _ interaction value
                      Py.VNone None None wa wb Hind) as Heq.
        unfold utils._run_converters in Ha, Hb. rewrite Ha, Hb in Heq.
        cbn in Heq. congruence.
    + intros Hfail. destruct Hone as [Hsucc|Hfail']; [exact Hsucc|congruence].
  - intros Herr. apply He in Herr as [Herr|(j & o & Hv & Ho & [e Hoe])];
      [discriminate|].
    destruct (resolve_all_lookup _ _ _ _ _ _ _ _ _ Hres Hv Ho) as (wa & wa' & Ha).
    destruct o as [[cv used] err]. cbn in Hoe. subst err.
    apply loop_error_raised in Ha as [Hnone|(c & w1' & w2' & Hc & Hcall & Hexp)];
      [discriminate|].
    now exists c, w1', e, w2'.
Qed.

(** C7. Once every token of the split argument has been processed,
    [transform] raises [ParsingFailed] if and only if the success mapping
    is empty, or [fail_on_error] is set and the failed mapping is not
    empty; the error then carries the error mapping. In every other case
    it returns: the [ParseResult] of the three mappings or, with
    [only_values], its converted values. *)
Theorem transform_raises_ParsingFailed_iff
    self interaction argument w values s f e w' :
  Py.split argument (StringParser.split_by self) = Some values ->
  StringParser.loop H self interaction values
    (Dict.empty, Dict.empty, Dict.empty) w = (Ok (s, f, e), w') ->
  let rejected :=
    s = Dict.empty
    \/ (StringParser.fail_on_error self = true /\ f <> Dict.empty) in
  let res := {| argument := argument; success := s;
                failed := f; errors := e |} in
  ((exists a errs,
       (StringParser.transform H self interaction argument w).1
       = Raise (ParsingFailed a errs))
   <-> rejected)
  /\ (rejected ->
      StringParser.transform H self interaction argument w
      = (Raise (ParsingFailed argument e), w'))
  /\ (~ rejected ->
      StringParser.transform H self interaction argument w
      = (Ok (if StringParser.only_values self
             then SequenceProxy (converted res) else Result res), w')).
Proof.
  intros Hsplit Hloop rejected res.
  rewrite (transform_after_loop _ _ _ _ _ _ _ _ _ Hsplit Hloop).
  assert (Hdec : negb (Dict.truthy s)
                 || StringParser.fail_on_error self && Dict.truthy f = true
                 <-> rejected).
  { unfold rejected. rewrite orb_true_iff, andb_true_iff, negb_true_iff.
    destruct s, f; cbn; unfold Dict.empty; intuition congruence. }
  destruct (negb (Dict.truthy s) || _) eqn:Hc.
  - assert rejected as Hr by now apply Hdec.
    split; [|split]; [| reflexivity | tauto].
    split; [tauto|]. intros _. now exists argument, e.
  - assert (~ rejected) as Hr by (intros Hr; apply Hdec in Hr; discriminate).
    split; [|split]; [| tauto | reflexivity].
    split; [|tauto]. intros (a & errs & Hraise). discriminate.
Qed.

End Parser.

(** ** The converter normalizer *)

Section Normalizer.

Context (H : Host).

Implicit Types (pre post members : list ValidConverter).

Lemma get_converters_app pre post :
  utils._get_converters H (pre ++ post)
  = (found ← utils._get_converters H pre;
     more ← utils._get_converters H post;
     Ok (found ++ more)).
Proof.
  induction pre as [|item pre IH]; cbn [app utils._get_converters].
  - now destruct (utils._get_converters H post).
  - destruct (utils._get_converters_item H item) as [a|e]; [|reflexivity].
    cbn. rewrite IH.
    destruct (utils._get_converters H pre) as [b|e]; [|reflexivity].
    cbn. destruct (utils._get_converters H post) as [c|e]; [|reflexivity].
    cbn. now rewrite app_assoc.
Qed.

(** A union all of whose members pass the mentionable test adds the three
    converters, wherever it stands in the list. *)
Lemma get_converters_mentionable pre post members :
  members <> [] ->
  forallb utils.mentionable_member members = true ->
  utils._get_converters H (pre ++ Union members :: post)
  = (found ← utils._get_converters H pre;
     more ← utils._get_converters H post;
     Ok (found ++ [commands MemberConverter; commands RoleConverter;
                   commands UserConverter] ++ more)).
Proof.
  intros Hne Hall. rewrite get_converters_app.
  destruct (utils._get_converters H pre) as [a|e]; [|reflexivity].
  cbn [mbind result_bind utils._get_converters].
  destruct members as [|u us]; [contradiction|].
  cbn [utils._get_converters_item]. rewrite Hall.
  cbn. now destruct (utils._get_converters H post).
Qed.

(** C8. A union of the member and the role class, in either order, adds
    exactly the member, role and user converters at its place in the
    normalized list, so the list is the same for both orders. *)
Theorem get_converters_member_or_role pre post :
  utils._get_converters H (pre ++ Union [discord Member; discord Role] :: post)
  = (found ← utils._get_converters H pre;
     more ← utils._get_converters H post;
     Ok (found ++ [commands MemberConverter; commands RoleConverter;
                   commands UserConverter] ++ more))
  /\ utils._get_converters H (pre ++ Union [discord Role; discord Member] :: post)
     = utils._get_converters H (pre ++ Union [discord Member; discord Role] :: post).
Proof.
  split.
  - now apply get_converters_mentionable.
  - now rewrite !get_converters_mentionable.
Qed.

(** C10. Every union whose members are all among the member, user and
    role classes adds the same three converters: the role converter is
    there also for the union of member and user alone. *)
Theorem get_converters_any_mentionable pre post members :
  members <> [] ->
  Forall (fun m => m = discord Member \/ m = discord User \/ m = discord Role)
    members ->
  utils._get_converters H (pre ++ Union members :: post)
  = (found ← utils._get_converters H pre;
     more ← utils._get_converters H post;
     Ok (found ++ [commands MemberConverter; commands RoleConverter;
                   commands UserConverter] ++ more))
  /\ utils._get_converters H [Union [discord Member; discord User]]
     = Ok [commands MemberConverter; commands RoleConverter;
           commands UserConverter].
Proof.
  intros Hne Hall. split; [|reflexivity].
  apply get_converters_mentionable; [exact Hne|].
  apply forallb_forall. intros m Hm. rewrite Forall_forall in Hall.
  apply list_elem_of_In in Hm.
  now destruct (Hall m Hm) as [->|[->| ->]].
Qed.

End Normalizer.

(** ** The variadic wrapper *)

Section Variadic.

Context (H : Host).

Implicit Types (self : VariadicArgs.t) (interaction : Interaction H).
Implicit Types (argument : string) (arguments : list string) (w : World H).

(** C5. With [min=2], [max=3], the default converter [str] and the
    default delimiter, ["a b"] is transformed into the sequence of its two
    converted tokens, ["a"] raises [InvalidVariadicArguments] with a
    message that starts with "Too few", and ["a b c d"] raises it with a
    message that starts with "Too many". *)
Theorem variadic_two_to_three interaction w :
  LIBRARY_BUILT_IN_TRANSFORMERS H (builtin py_str) = Some opt_string ->
  exists self,
    VariadicArgs.init H (Some 2%Z) (Some 3%Z) (inl (builtin py_str)) " " = Ok self
    /\ VariadicArgs.transform H self interaction "a b" w
       = (Ok [Py.VStr "a"; Py.VStr "b"], w)
    /\ VariadicArgs.transform H self interaction "a" w
       = (Raise (InvalidVariadicArguments "a" ["a"]
                   "Too few arguments. Expected 2 to 3 arguments, got 1."), w)
    /\ VariadicArgs.transform H self interaction "a b c d" w
       = (Raise (InvalidVariadicArguments "a b c d" ["a"; "b"; "c"; "d"]
                   "Too many arguments. Expected 2 to 3 arguments, got 4."), w).
Proof.
  intros Hstr. eexists. split.
  - unfold VariadicArgs.init, StringParser.init.
    cbn [utils._get_converters utils._get_converters_item].
    unfold utils._get_converters_plain. rewrite Hstr. reflexivity.
  - repeat split; reflexivity.
Qed.

(** C6. With [converters=[int]] and no bounds, ["1 2 x"] raises
    [VariadicArgsFailed], whose error mapping has the one key ["x"]. *)
Theorem variadic_int_one_failure interaction w :
  LIBRARY_BUILT_IN_TRANSFORMERS H (builtin py_int) = Some opt_integer ->
  exists self,
    VariadicArgs.init H None None (inr [builtin py_int]) " " = Ok self
    /\ VariadicArgs.transform H self interaction "1 2 x" w
       = (Raise (VariadicArgsFailed "1 2 x" ["1"; "2"; "x"]
                   [("x", NotAnInteger "x")]
                   "1 arguments failed to be converted. Check the errors attribute."),
          w).
Proof.
  intros Hint. eexists. split.
  - unfold VariadicArgs.init, StringParser.init.
    cbn [utils._get_converters utils._get_converters_item].
    unfold utils._get_converters_plain. rewrite Hint. reflexivity.
  - reflexivity.
Qed.

Lemma init_inv min max converters split_by self :
  VariadicArgs.init H min max converters split_by = Ok self ->
  VariadicArgs.min self = min
  /\ VariadicArgs.max self = max
  /\ StringParser.split_by (VariadicArgs.base self) = split_by
  /\ StringParser.only_values (VariadicArgs.base self) = false
  /\ StringParser.fail_on_error (VariadicArgs.base self) = false.
Proof.
  unfold VariadicArgs.init, StringParser.init.
  destruct (utils._get_converters H _) as [cs|e]; [|discriminate].
  cbn. now intros [= <-].
Qed.

(** The success mapping never holds a key twice. *)
Lemma record_all_NoDup arguments outcomes s f e s' f' e' :
  NoDup (Dict.keys s) ->
  run.record_all arguments outcomes (s, f, e) = (s', f', e') ->
  NoDup (Dict.keys s').
Proof.
  revert outcomes s f e.
  induction arguments as [|v rest IH]; intros [|o more] s f e Hs;
    try (cbn; now intros [= <- <- <-]).
  cbn [run.record_all]. destruct o as [[cv c] err].
  unfold StringParser.record.
  destruct (Py.truthy cv); destruct err; apply IH;
    auto using keys_set_NoDup.
Qed.

(** A list with a repeated token is longer than any mapping keyed by its
    tokens. *)
Lemma repeated_token_shortens {V : Type} arguments (d : Dict.t V) :
  ~ NoDup arguments ->
  NoDup (Dict.keys d) ->
  (forall k, Dict.mem k d = true -> k ∈ arguments) ->
  Dict.len d <> length arguments.
Proof.
  intros Hdup Hd Hsub Hlen. apply Hdup.
  assert (Hsm : Dict.keys d ⊆+ arguments).
  { apply NoDup_submseteq; [exact Hd|]. intros k Hk. now apply Hsub, mem_keys. }
  assert (Hperm : Dict.keys d ≡ₚ arguments).
  { apply submseteq_length_Permutation; [exact Hsm|].
    unfold Dict.keys. rewrite length_map. unfold Dict.len in Hlen. lia. }
  now rewrite <- Hperm.
Qed.

Lemma within_bounds (n : nat) (lo hi : option Z) :
  (forall m, lo = Some m -> (m <= Z.of_nat n)%Z) ->
  (forall m, hi = Some m -> (Z.of_nat n <= m)%Z) ->
  below n lo = false /\ above n hi = false.
Proof.
  intros Hlo Hhi. split.
  - destruct lo as [m|]; [|reflexivity]. cbn.
    specialize (Hlo m eq_refl). apply andb_false_iff. right. lia.
  - destruct hi as [m|]; [|reflexivity]. cbn.
    specialize (Hhi m eq_refl). apply andb_false_iff. right. lia.
Qed.

Lemma empty_no_key {V : Type} (d : Dict.t V) :
  d = Dict.empty <-> forall k, Dict.mem k d = false.
Proof.
  split; [now intros ->|]. destruct d as [|[k v] d]; [reflexivity|].
  intros Hno. specialize (Hno k). unfold Dict.mem in Hno. cbn in Hno.
  now rewrite String.eqb_refl in Hno.
Qed.

(** C9 (amended). For an argument whose split list holds a token more
    than once and whose token count lies within the bounds, [transform]
    raises [VariadicArgsFailed] as soon as every token has been resolved,
    also when every token converts. The error mapping of that error holds
    the tokens on which the resolver reported an error; it is empty
    exactly when no resolution reported one. *)
Theorem variadic_duplicates_rejected
    min max converters split_by self interaction argument w
    arguments outcomes w' :
  VariadicArgs.init H min max converters split_by = Ok self ->
  Py.split argument split_by = Some arguments ->
  ~ NoDup arguments ->
  (forall m, min = Some m -> (m <= Z.of_nat (length arguments))%Z) ->
  (forall m, max = Some m -> (Z.of_nat (length arguments) <= m)%Z) ->
  run.resolve_all H (StringParser.converters (VariadicArgs.base self))
    interaction arguments w = (Ok outcomes, w') ->
  exists errors,
    VariadicArgs.transform H self interaction argument w
    = (Raise (VariadicArgsFailed_init argument arguments errors), w')
    /\ (forall k,
          Dict.mem k errors = true <->
          run.resolved_with (fun o => is_Some o.2) k arguments outcomes)
    /\ (errors = Dict.empty <-> forall o, o ∈ outcomes -> o.2 = None).
Proof.
  intros Hinit Hsplit Hdup Hmin Hmax Hres.
  apply init_inv in Hinit as (Hlo & Hhi & Hsep & Honly & Hfail).
  pose proof (resolve_all_length _ _ _ _ _ _ _ Hres) as Hlen.
  destruct (run.record_all arguments outcomes
              (Dict.empty, Dict.empty, Dict.empty)) as [[s f] e] eqn:Hrec.
  assert (Hloop : StringParser.loop H (VariadicArgs.base self) interaction
                    arguments (Dict.empty, Dict.empty, Dict.empty) w
                  = (Ok (s, f, e), w')).
  { now rewrite loop_resolve_all, Hres, Hrec. }
  assert (Hmem : forall k,
             Dict.mem k e = true <->
             run.resolved_with (fun o => is_Some o.2) k arguments outcomes).
  { intros k. destruct (record_all_mem _ _ _ _ _ _ _ _ k Hlen Hrec) as (_ & _ & He).
    rewrite He. change (Dict.mem k Dict.empty) with false. intuition discriminate. }
  exists e. split; [|split; [exact Hmem|]].
  - unfold VariadicArgs.transform. rewrite Hsep, Hsplit.
    rewrite <- Hsep in Hsplit.
    rewrite (transform_after_loop _ _ _ _ _ _ _ _ _ _ Hsplit Hloop).
    rewrite Hfail, Honly. cbn [andb]. rewrite orb_false_r.
    destruct (Dict.truthy s) eqn:Hs; cbn [negb]; [|reflexivity].
    cbn [success failed errors].
    destruct (within_bounds (length arguments) min max Hmin Hmax) as [Hb Ha].
    rewrite Hlo, Hhi, Hb, Ha.
    assert (Hsome : match arguments with [] => false | _ :: _ => true end = true).
    { destruct arguments; [destruct Hdup; constructor|reflexivity]. }
    rewrite Hsome. cbn [negb orb].
    assert (Hne : Dict.len s <> length arguments).
    { apply repeated_token_shortens; [exact Hdup| |].
      - apply (record_all_NoDup arguments outcomes
                 Dict.empty Dict.empty Dict.empty s f e); [|exact Hrec].
        apply NoDup_nil_2.
      - intros k Hk.
        destruct (record_all_mem _ _ _ _ _ _ _ _ k Hlen Hrec) as (Hks & _ & _).
        apply Hks in Hk as [Hk|(j & o & Hj & _)]; [discriminate|].
        now apply list_elem_of_lookup_2 in Hj. }
    apply Nat.eqb_neq in Hne. rewrite Hne. cbn [negb].
    now rewrite orb_true_r.
  - rewrite empty_no_key. split.
    + intros Hno o Ho. apply list_elem_of_lookup in Ho as [j Hj].
      destruct (lookup_lt_is_Some_2 arguments j) as [k Hk].
      { rewrite <- Hlen. now apply lookup_lt_Some in Hj. }
      destruct (o.2) as [x|] eqn:Hx; [|reflexivity].
      assert (Dict.mem k e = true) as Hin.
      { apply Hmem. exists j, o. rewrite Hx. eauto. }
      rewrite Hno in Hin. discriminate.
    + intros Hnone k. apply not_true_is_false. intros Hk.
      apply Hmem in Hk as (j & o & _ & Hj & [x Hx]).
      rewrite (Hnone o) in Hx; [discriminate|].
      now apply list_elem_of_lookup_2 in Hj.
Qed.

End Variadic.

(** * The properties on [sample_host] *)

(** C1, as worded, fails: [IntegerConverter] raises [NotAnInteger] on
    ["x"], [StringConverter] is the first to return a truthy value, and
    the triple still carries the error of [IntegerConverter]. *)
Lemma first_success_keeps_earlier_error :
  run.call sample_host IntegerConverter tt "x" 0
  = (Raise (NotAnInteger "x"), 0)
  /\ run.expected IntegerConverter (NotAnInteger "x") = true
  /\ run.call sample_host StringConverter tt "x" 0 = (Ok (Py.VStr "x"), 0)
  /\ Py.truthy (Py.VStr "x") = true
  /\ utils._run_converters sample_host [IntegerConverter; StringConverter] tt "x" 0
     = (Ok (Py.VStr "x", Some StringConverter, Some (NotAnInteger "x")), 0)
  /\ utils._run_converters sample_host [IntegerConverter; StringConverter] tt "x" 0
     <> (Ok (Py.VStr "x", Some StringConverter, None), 0).
Proof. repeat split; try reflexivity. discriminate. Qed.

Lemma run_converters_first_success_witness :
  utils._run_converters sample_host
    [IntegerConverter; StringConverter; commands MemberConverter] tt "x" 0
  = (Ok (Py.VStr "x", Some StringConverter, Some (NotAnInteger "x")), 0).
Proof.
  apply (run_converters_first_success sample_host
           [IntegerConverter] StringConverter [commands MemberConverter]
           tt "x" 0 [Raise (NotAnInteger "x")] 0 (Py.VStr "x") 0);
    reflexivity.
Defined.

(** C2, as worded, fails: on ["0"] the only converter returns the falsy
    [0], and the value component of the triple is that [0], not [None]. *)
Lemma all_fail_keeps_falsy_value :
  run.call sample_host IntegerConverter tt "0" 0 = (Ok (Py.VInt 0), 0)
  /\ Py.truthy (Py.VInt 0) = false
  /\ utils._run_converters sample_host [IntegerConverter] tt "0" 0
     = (Ok (Py.VInt 0, Some IntegerConverter, None), 0)
  /\ utils._run_converters sample_host [IntegerConverter] tt "0" 0
     <> (Ok (Py.VNone, Some IntegerConverter, None), 0).
Proof. repeat split; try reflexivity. discriminate. Qed.

Lemma run_converters_all_fail_witness :
  utils._run_converters sample_host
    [IntegerConverter; commands MemberConverter] tt "0" 0
  = (Ok (Py.VInt 0, Some (commands MemberConverter),
         Some (MemberNotFound "0")), 0).
Proof.
  apply (run_converters_all_fail sample_host
           [IntegerConverter; commands MemberConverter] tt "0" 0
           [Ok (Py.VInt 0); Raise (MemberNotFound "0")] 0);
    reflexivity.
Defined.

(** C3, as worded, fails: both converters raise on ["x"], none succeeds,
    and the error handed back, in the triple and in the error mapping, is
    the second one. *)
Lemma later_error_replaces_first :
  run.outcomes sample_host [IntegerConverter; commands MemberConverter] tt "x" 0
  = ([Raise (NotAnInteger "x"); Raise (MemberNotFound "x")], 0)
  /\ run.expected IntegerConverter (NotAnInteger "x") = true
  /\ run.expected (commands MemberConverter) (MemberNotFound "x") = true
  /\ utils._run_converters sample_host
       [IntegerConverter; commands MemberConverter] tt "x" 0
     = (Ok (Py.VNone, Some (commands MemberConverter),
            Some (MemberNotFound "x")), 0)
  /\ MemberNotFound "x" <> NotAnInteger "x"
  /\ StringParser.loop sample_host
       {| StringParser.split_by := " ";
          StringParser.converters := [IntegerConverter; commands MemberConverter];
          StringParser.only_values := false;
          StringParser.fail_on_error := false |}
       tt ["x"] (Dict.empty, Dict.empty, Dict.empty) 0
     = (Ok (Dict.empty, [("x", Some (commands MemberConverter))],
            [("x", MemberNotFound "x")]), 0).
Proof. repeat split; try reflexivity. discriminate. Qed.

Lemma run_converters_reports_last_error_witness :
  exists v,
    Py.truthy v = false
    /\ utils._run_converters sample_host
         [IntegerConverter; commands MemberConverter; IntegerConverter] tt "0" 0
       = (Ok (v, Some IntegerConverter, Some (MemberNotFound "0")), 0).
Proof.
  destruct (run_converters_reports_last_error sample_host
              [IntegerConverter] (commands MemberConverter) [IntegerConverter]
              tt "0" 0 [Ok (Py.VInt 0)] 0 (MemberNotFound "0") 0
              [Ok (Py.VInt 0)] 0
              eq_refl eq_refl eq_refl eq_refl eq_refl eq_refl eq_refl)
    as (v & Hv & Hrun & _).
  exists v. split; [exact Hv|exact Hrun].
Defined.

(** C4, as worded, fails: [Once] converts the first ["a"] and refuses the
    second, [transform] returns a [ParseResult], and ["a"] is a key of
    both [success] and [failed]. *)
Lemma token_in_both_mappings :
  exists self res,
    StringParser.init sample_host " " [Once] false false = Ok self
    /\ Py.split "a a" " " = Some ["a"; "a"]
    /\ StringParser.transform sample_host self tt "a a" 0 = (Ok (Result res), 2)
    /\ Dict.mem "a" (success res) = true
    /\ Dict.mem "a" (failed res) = true.
Proof. do 2 eexists. repeat split; reflexivity. Qed.

Lemma transform_files_every_token_witness :
  exists values,
    Py.split "1 x" " " = Some values
    /\ forall value,
         value ∈ values ->
         Dict.mem value [("1", (Py.VInt 1, Some IntegerConverter))] = true
         \/ Dict.mem value [("x", Some IntegerConverter)] = true.
Proof.
  destruct (transform_files_every_token sample_host
              {| StringParser.split_by := " ";
                 StringParser.converters := [IntegerConverter];
                 StringParser.only_values := false;
                 StringParser.fail_on_error := false |}
              tt "1 x" 0
              {| argument := "1 x";
                 success := [("1", (Py.VInt 1, Some IntegerConverter))];
                 failed := [("x", Some IntegerConverter)];
                 errors := [("x", NotAnInteger "x")] |}
              0 eq_refl)
    as (values & outcomes & Hsplit & _ & Hall).
  exists values. split; [exact Hsplit|].
  intros value Hin. exact (proj1 (Hall value Hin)).
Defined.

Lemma transform_raises_ParsingFailed_iff_witness :
  StringParser.transform sample_host
    {| StringParser.split_by := " ";
       StringParser.converters := [IntegerConverter];
       StringParser.only_values := false;
       StringParser.fail_on_error := true |}
    tt "1 x" 0
  = (Raise (ParsingFailed "1 x" [("x", NotAnInteger "x")]), 0).
Proof.
  apply (transform_raises_ParsingFailed_iff sample_host
           {| StringParser.split_by := " ";
              StringParser.converters := [IntegerConverter];
              StringParser.only_values := false;
              StringParser.fail_on_error := true |}
           tt "1 x" 0 ["1"; "x"]
           [("1", (Py.VInt 1, Some IntegerConverter))]
           [("x", Some IntegerConverter)]
           [("x", NotAnInteger "x")] 0 eq_refl eq_refl).
  right. split; [reflexivity|discriminate].
Defined.

Lemma variadic_two_to_three_witness :
  exists self,
    VariadicArgs.init sample_host (Some 2%Z) (Some 3%Z) (inl (builtin py_str)) " "
    = Ok self
    /\ VariadicArgs.transform sample_host self tt "a b" 0
       = (Ok [Py.VStr "a"; Py.VStr "b"], 0).
Proof.
  destruct (variadic_two_to_three sample_host tt 0 eq_refl)
    as (self & Hinit & Hok & _).
  exists self. split; [exact Hinit|exact Hok].
Defined.

Lemma variadic_int_one_failure_witness :
  exists self errors message,
    VariadicArgs.init sample_host None None (inr [builtin py_int]) " " = Ok self
    /\ VariadicArgs.transform sample_host self tt "1 2 x" 0
       = (Raise (VariadicArgsFailed "1 2 x" ["1"; "2"; "x"] errors message), 0)
    /\ Dict.keys errors = ["x"].
Proof.
  destruct (variadic_int_one_failure sample_host tt 0 eq_refl)
    as (self & Hinit & Hfail).
  exists self. do 2 eexists. split; [exact Hinit|]. split; [exact Hfail|reflexivity].
Defined.

(** C9, as worded, fails. With [converters=[int, str]] both tokens of
    ["a a"] convert and the count is within the (absent) bounds, yet the
    error mapping of the [VariadicArgsFailed] is not empty: it holds what
    [IntegerConverter] raised before [StringConverter] succeeded. And with
    [max=1] the repeated token does not lead to [VariadicArgsFailed] but to
    [InvalidVariadicArguments]. *)
Lemma duplicates_with_errors_or_out_of_bounds :
  (exists self,
      VariadicArgs.init sample_host None None
        (inr [builtin py_int; builtin py_str]) " " = Ok self
      /\ Py.split "a a" " " = Some ["a"; "a"]
      /\ utils._run_converters sample_host
           (StringParser.converters (VariadicArgs.base self)) tt "a" 0
         = (Ok (Py.VStr "a", Some StringConverter, Some (NotAnInteger "a")), 0)
      /\ VariadicArgs.transform sample_host self tt "a a" 0
         = (Raise (VariadicArgsFailed "a a" ["a"; "a"]
                     [("a", NotAnInteger "a")]
                     "1 arguments failed to be converted. Check the errors attribute."),
            0))
  /\ (exists self,
        VariadicArgs.init sample_host None (Some 1%Z) (inl (builtin py_str)) " "
        = Ok self
        /\ VariadicArgs.transform sample_host self tt "a a" 0
           = (Raise (InvalidVariadicArguments "a a" ["a"; "a"]
                       "Too many arguments. Expected None to 1 arguments, got 2."),
              0)).
Proof. split; eexists; repeat split; reflexivity. Qed.

Lemma variadic_duplicates_rejected_witness :
  exists errors,
    VariadicArgs.transform sample_host
      {| VariadicArgs.min := None; VariadicArgs.max := Some 2%Z;
         VariadicArgs.base :=
           {| StringParser.split_by := " ";
              StringParser.converters := [StringConverter];
              StringParser.only_values := false;
              StringParser.fail_on_error := false |} |}
      tt "a a" 0
    = (Raise (VariadicArgsFailed_init "a a" ["a"; "a"] errors), 0)
    /\ errors = Dict.empty.
Proof.
  destruct (variadic_duplicates_rejected sample_host
              None (Some 2%Z) (inl (builtin py_str)) " "
              {| VariadicArgs.min := None; VariadicArgs.max := Some 2%Z;
                 VariadicArgs.base :=
                   {| StringParser.split_by := " ";
                      StringParser.converters := [StringConverter];
                      StringParser.only_values := false;
                      StringParser.fail_on_error := false |} |}
              tt "a a" 0 ["a"; "a"]
              [(Py.VStr "a", Some StringConverter, None);
               (Py.VStr "a", Some StringConverter, None)] 0
              eq_refl eq_refl)
    as (errors & Hraise & _ & Hempty).
  - intros Hnd. apply NoDup_cons in Hnd as [Hnotin _].
    apply Hnotin. apply list_elem_of_here.
  - discriminate.
  - intros m [= <-]. cbn. lia.
  - reflexivity.
  - exists errors. split; [exact Hraise|]. apply Hempty.
    intros o Ho. apply elem_of_cons in Ho as [->|Ho]; [reflexivity|].
    apply list_elem_of_singleton in Ho as ->. reflexivity.
Defined.

Lemma get_converters_any_mentionable_witness :
  utils._get_converters sample_host
    [builtin py_int; Union [discord Member; discord User]]
  = Ok [IntegerConverter; commands MemberConverter; commands RoleConverter;
        commands UserConverter].
Proof.
  apply (get_converters_any_mentionable sample_host
           [builtin py_int] [] [discord Member; discord User]).
  - discriminate.
  - constructor; [now left|]. constructor; [now right; left|]. constructor.
Defined.

(** * Further properties *)

(** ** The converter normalizer *)

(** Induction over converter descriptions, through the members of
    unions. *)
Lemma ValidConverter_nested_ind (P : ValidConverter -> Prop) :
  (forall c, (forall args, c <> Union args) -> P c) ->
  (forall args, Forall P args -> P (Union args)) ->
  forall c, P c.
Proof.
  intros Hplain Hunion. fix IH 1. intros c.
  destruct c as [t|d|k| | | | | | |k|args];
    try (apply Hplain; intros args'; discriminate).
  apply Hunion. induction args as [|a args IHargs]; constructor.
  - apply IH.
  - exact IHargs.
Qed.

Section NormalizerMore.

Context (H : Host).

Implicit Types (pre post items : list ValidConverter) (item : ValidConverter).

(** The turn of the loop for a union that is not the mentionable one is
    the recursive call on its members. *)
Lemma get_converters_item_union items :
  items <> [] ->
  forallb utils.mentionable_member items = false ->
  utils._get_converters_item H (Union items) = utils._get_converters H items.
Proof.
  intros Hne Hall. destruct items as [|u us]; [contradiction|].
  cbn [utils._get_converters_item]. rewrite Hall. reflexivity.
Qed.

Lemma get_converters_item_plain item :
  (forall args, item <> Union args) ->
  utils._get_converters_item H item = utils._get_converters_plain H item.
Proof.
  intros Hno. destruct item as [t|d|k| | | | | | |k|args]; try reflexivity.
  now destruct (Hno args).
Qed.

Lemma get_converters_plain_callable item found :
  utils._get_converters_plain H item = Ok found ->
  found <> [] /\ forallb callable_converter found = true.
Proof.
  unfold utils._get_converters_plain.
  destruct (LIBRARY_BUILT_IN_TRANSFORMERS H item) as [t|].
  - destruct t; cbn; intros [= <-]; split; (discriminate || reflexivity).
  - destruct (utils.OWN_BUILT_IN_TRANSFORMERS item) as [c|] eqn:Hown.
    + intros [= <-]. split; [discriminate|].
      destruct item as [[]|[]|[]| | | | | | |k|args]; cbn in Hown;
        try discriminate; injection Hown as <-; reflexivity.
    + destruct (isclass item); [|discriminate].
      destruct (issubclass item app_commands_Transform
                || issubclass item commands_Converter) eqn:Hsub; [|discriminate].
      intros [= <-]. split; [discriminate|].
      destruct item as [t|d|k| | | | | | |k|args]; cbn in Hsub |- *;
        try discriminate; reflexivity.
Qed.

Lemma get_converters_Forall items found :
  Forall (adds_callables H) items ->
  utils._get_converters H items = Ok found ->
  forallb callable_converter found = true /\ length items <= length found.
Proof.
  intros Hall. revert found.
  induction Hall as [|item items Hitem _ IH]; intros found.
  - cbn. intros [= <-]. split; [reflexivity|lia].
  - cbn [utils._get_converters].
    destruct (utils._get_converters_item H item) as [a|e] eqn:Ha; [|discriminate].
    cbn. destruct (utils._get_converters H items) as [b|e]; [|discriminate].
    cbn. intros [= <-].
    destruct (Hitem a Ha) as [Hne Hca]. destruct (IH b eq_refl) as [Hcb Hlen].
    split.
    + now rewrite forallb_app, Hca, Hcb.
    + rewrite length_app. cbn. destruct a; [contradiction|cbn; lia].
Qed.

Lemma get_converters_item_callable item : adds_callables H item.
Proof.
  induction item as [item Hplain|args IH] using ValidConverter_nested_ind;
    intros found.
  - rewrite get_converters_item_plain by exact Hplain.
    apply get_converters_plain_callable.
  - destruct args as [|u us].
    + cbn. apply get_converters_plain_callable.
    + destruct (forallb utils.mentionable_member (u :: us)) eqn:Hm.
      * cbn [utils._get_converters_item]. rewrite Hm. intros [= <-].
        split; [discriminate|reflexivity].
      * rewrite get_converters_item_union by (exact Hm || discriminate).
        intros Hgc. destruct (get_converters_Forall _ _ IH Hgc) as [Hc Hlen].
        split; [|exact Hc]. destruct found; [cbn in Hlen; lia|discriminate].
Qed.


(** X2. The normalizer drops nothing: the list it returns has at least as
    many converters as the list it was given has items, so it is empty
    only for the empty list. *)
Theorem get_converters_drops_nothing converters found :
  utils._get_converters H converters = Ok found ->
  length converters <= length found
  /\ (found = [] -> converters = []).
Proof.
  intros Hgc.
  destruct (get_converters_Forall converters found) as [_ Hlen];
    [|exact Hgc|].
  - apply Forall_forall. intros item _. apply get_converters_item_callable.
  - split; [exact Hlen|]. intros ->. destruct converters; [reflexivity|].
    cbn in Hlen. lia.
Qed.

(** X3. A union that is not the mentionable one stands for the list of
    its members: normalizing a list with that union in it is normalizing
    the list with the members in its place. *)
Theorem get_converters_union_in_place pre post items :
  items <> [] ->
  forallb utils.mentionable_member items = false ->
  utils._get_converters H (pre ++ Union items :: post)
  = utils._get_converters H (pre ++ items ++ post).
Proof.
  intros Hne Hall.
  rewrite !get_converters_app. cbn [utils._get_converters].
  rewrite get_converters_item_union by assumption.
  destruct (utils._get_converters H pre) as [a|e]; [|reflexivity].
  cbn. destruct (utils._get_converters H items) as [b|e]; [|reflexivity].
  cbn. destruct (utils._get_converters H post) as [c|e]; reflexivity.
Qed.

Lemma get_converters_error_at pre item post found e :
  utils._get_converters H pre = Ok found ->
  utils._get_converters H [item] = Raise e ->
  utils._get_converters H (pre ++ item :: post) = Raise e.
Proof.
  intros Hpre Hitem. rewrite get_converters_app, Hpre.
  cbn [utils._get_converters] in *.
  destruct (utils._get_converters_item H item) as [a|x]; [discriminate|].
  cbn in *. congruence.
Qed.

(** X4. Normalization gives no partial result: the [TypeError] of the
    first item that is refused is the outcome of the whole call, whatever
    stands after that item. *)
Theorem get_converters_first_error pre item post found e :
  utils._get_converters H pre = Ok found ->
  utils._get_converters H [item] = Raise e ->
  utils._get_converters H (pre ++ item :: post) = Raise e.
Proof.
  intros Hpre Hitem. now apply get_converters_error_at with (found := found).
Qed.

(** X5. A developer's class that derives from [app_commands.Transformer]
    alone is refused by the normalizer with a [TypeError], although the
    resolver would run such a class through its [transform]. *)
Theorem get_converters_refuses_transformer_class pre post found k :
  is_class k = true ->
  derives_Transformer k = true ->
  derives_Transform k = false ->
  derives_Converter k = false ->
  LIBRARY_BUILT_IN_TRANSFORMERS H (custom k) = None ->
  utils._get_converters H pre = Ok found ->
  utils._get_converters H (pre ++ custom k :: post)
  = Raise (TypeError (expected_converter (custom k)))
  /\ utils._custom_is_subclass (custom k) commands_Converter = false
  /\ utils._custom_is_subclass (custom k) app_commands_Transformer = true.
Proof.
  intros Hcls Htr Htf Hcv Htab Hpre. split; [|split].
  - apply (get_converters_error_at pre (custom k) post found); [exact Hpre|].
    cbn. unfold utils._get_converters_plain. rewrite Htab. cbn.
    now rewrite Hcls, Htf, Hcv.
  - unfold utils._custom_is_subclass. cbn. now rewrite Hcv, Tauto.if_same.
  - unfold utils._custom_is_subclass. cbn. now rewrite Htr, Tauto.if_same.
Qed.

End NormalizerMore.

(** X6. The two places that map an option type to a converter agree:
    where [APP_COMMAND_TYPE_TO_CONVERTER] has an entry,
    [converter_from_appcommandoptiontype] returns that one converter; the
    types without an entry are the mentionable one, which gives three
    converters, and those that raise [TypeError]. *)
Theorem option_type_tables_agree (t : AppCommandOptionType) :
  match APP_COMMAND_TYPE_TO_CONVERTER t with
  | Some c => utils.converter_from_appcommandoptiontype t = Ok [c]
  | None =>
      t = opt_mentionable
      /\ utils.converter_from_appcommandoptiontype t
         = Ok [commands MemberConverter; commands RoleConverter;
               commands UserConverter]
      \/ exists what, utils.converter_from_appcommandoptiontype t
                      = Raise (TypeError what)
  end.
Proof. destruct t; cbn; eauto. Qed.

(** ** The single-value resolver *)

Section ResolverMore.

Context (H : Host).

Implicit Types (converters pre post : list ValidConverter).
Implicit Types (interaction : Interaction H) (value : string) (w : World H).

Lemma loop_foreign_error
    pre c post interaction value cv used error w os w1 e w2 :
  run.outcomes H pre interaction value w = (os, w1) ->
  run.all_fail pre os = true ->
  Py.truthy cv = false ->
  run.call H c interaction value w1 = (Raise e, w2) ->
  run.expected c e = false ->
  utils._run_converters_loop H (pre ++ c :: post) interaction value cv used error w
  = (Raise e, w2).
Proof.
  revert cv used error w os.
  induction pre as [|p pre IH]; intros cv used error w os Hos Hall Hcv Hc He.
  - cbn in Hos. injection Hos as <- <-. cbn [app].
    rewrite (loop_cons H) by exact Hcv. now rewrite Hc, He.
  - cbn [run.outcomes] in Hos. cbn [app]. rewrite (loop_cons H) by exact Hcv.
    destruct (run.call H p interaction value w) as [o w'].
    destruct (run.outcomes H pre interaction value w') as [os' w''] eqn:Hrest.
    injection Hos as <- <-.
    cbn in Hall. apply andb_prop in Hall as [Ho Hall].
    destruct o as [v'|x]; cbn in Ho.
    + apply negb_true_iff in Ho.
      now apply (IH v' (Some p) error w' os').
    + rewrite Ho. now apply (IH cv (Some p) (Some x) w' os').
Qed.

(** X7. An error outside the class the resolver catches for a converter
    is not recorded: when the converters before [c] all fail and [c]
    raises such an error, the resolver raises it, in the state [c] left,
    and the converters after [c] are not called. *)
Theorem run_converters_foreign_error
    pre c post interaction value w os w1 e w2 :
  run.outcomes H pre interaction value w = (os, w1) ->
  run.all_fail pre os = true ->
  run.call H c interaction value w1 = (Raise e, w2) ->
  run.expected c e = false ->
  utils._run_converters H (pre ++ c :: post) interaction value w
  = (Raise e, w2).
Proof.
  intros Hos Hall Hc He. unfold utils._run_converters.
  now apply loop_foreign_error with (os := os) (w1 := w1).
Qed.

(** The converter in the triple is the one held on entry or a member of
    the list. *)
Lemma loop_used_member converters interaction value cv used error w v used' e w' :
  utils._run_converters_loop H converters interaction value cv used error w
  = (Ok (v, used', e), w') ->
  used' = used \/ exists c, c ∈ converters /\ used' = Some c.
Proof.
  revert cv used error w.
  induction converters as [|c rest IH]; intros cv used error w.
  - cbn. intros [= <- <- <- <-]. now left.
  - destruct (Py.truthy cv) eqn:Hcv.
    + rewrite (loop_break H) by exact Hcv. intros [= <- <- <- <-]. now left.
    + rewrite (loop_cons H) by exact Hcv.
      destruct (run.call H c interaction value w) as [[x|x] w1].
      * intros Hloop. right.
        destruct (IH _ _ _ _ Hloop) as [->|(c' & Hin & ->)].
        -- exists c. split; [apply list_elem_of_here|reflexivity].
        -- exists c'. split; [now apply list_elem_of_further|reflexivity].
      * destruct (run.expected c x); [|discriminate].
        intros Hloop. right.
        destruct (IH _ _ _ _ Hloop) as [->|(c' & Hin & ->)].
        -- exists c. split; [apply list_elem_of_here|reflexivity].
        -- exists c'. split; [now apply list_elem_of_further|reflexivity].
Qed.

(** A truthy value in the triple was returned by the converter in the
    triple. *)
Lemma loop_value_returned converters interaction value cv used error w v used' e w' :
  (Py.truthy cv = true ->
   exists c w1 w2, used = Some c
     /\ run.call H c interaction value w1 = (Ok cv, w2)) ->
  utils._run_converters_loop H converters interaction value cv used error w
  = (Ok (v, used', e), w') ->
  Py.truthy v = true ->
  exists c w1 w2, used' = Some c
    /\ run.call H c interaction value w1 = (Ok v, w2).
Proof.
  revert cv used error w.
  induction converters as [|c rest IH]; intros cv used error w Hinv.
  - cbn. intros [= <- <- <- <-]. exact Hinv.
  - destruct (Py.truthy cv) eqn:Hcv.
    + rewrite (loop_break H) by exact Hcv. intros [= <- <- <- <-] _.
      now apply Hinv.
    + rewrite (loop_cons H) by exact Hcv.
      destruct (run.call H c interaction value w) as [[x|x] w1] eqn:Hc.
      * apply IH. intros _. now exists c, w, w1.
      * destruct (run.expected c x); [|discriminate].
        apply IH. intros Ht. congruence.
Qed.

(** A falsy value in the triple means that every converter was tried. *)
Lemma loop_falsy_last converters interaction value cv used error w v used' e w' :
  utils._run_converters_loop H converters interaction value cv used error w
  = (Ok (v, used', e), w') ->
  Py.truthy v = false ->
  used' = match last converters with Some c => Some c | None => used end.
Proof.
  revert cv used error w.
  induction converters as [|c rest IH]; intros cv used error w.
  - cbn. now intros [= <- <- <- <-].
  - destruct (Py.truthy cv) eqn:Hcv.
    + rewrite (loop_break H) by exact Hcv. intros [= <- <- <- <-]. congruence.
    + rewrite (loop_cons H) by exact Hcv. rewrite last_cons.
      destruct (run.call H c interaction value w) as [[x|x] w1].
      * intros Hloop Hv. rewrite (IH _ _ _ _ Hloop Hv).
        now destruct (last rest).
      * destruct (run.expected c x); [|discriminate].
        intros Hloop Hv. rewrite (IH _ _ _ _ Hloop Hv).
        now destruct (last rest).
Qed.

(** X8. What a returned triple tells. The converter component is [None]
    for the empty list only, and otherwise a member of the list. A truthy
    value was returned by the very converter the triple names. With a
    falsy value, the converter is the last of the list. *)
Theorem run_converters_triple converters interaction value w v used e w' :
  utils._run_converters H converters interaction value w
  = (Ok (v, used, e), w') ->
  (used = None <-> converters = [])
  /\ (forall c, used = Some c -> c ∈ converters)
  /\ (Py.truthy v = true ->
      exists c w1 w2,
        used = Some c /\ run.call H c interaction value w1 = (Ok v, w2))
  /\ (Py.truthy v = false -> used = last converters).
Proof.
  unfold utils._run_converters. intros Hrun.
  pose proof (loop_used_member _ _ _ _ _ _ _ _ _ _ _ Hrun) as Hused.
  assert (Hlast : Py.truthy v = false -> used = last converters).
  { intros Hv. rewrite (loop_falsy_last _ _ _ _ _ _ _ _ _ _ _ Hrun Hv).
    now destruct (last converters). }
  split; [|split; [|split]].
  - split.
    + intros ->. destruct converters as [|c rest]; [reflexivity|].
      rewrite (loop_cons H) in Hrun by reflexivity.
      destruct (run.call H c interaction value w) as [[x|x] w1].
      * apply loop_used_member in Hrun as [Hu|(c' & _ & Hu)]; discriminate.
      * destruct (run.expected c x); [|discriminate].
        apply loop_used_member in Hrun as [Hu|(c' & _ & Hu)]; discriminate.
    + intros ->. cbn in Hrun. now injection Hrun as <- <- <- <-.
  - intros c ->. destruct Hused as [Hu|(c' & Hin & [= ->])]; [discriminate|].
    exact Hin.
  - apply (loop_value_returned converters interaction value
             Py.VNone None None w v used e w'); [discriminate|exact Hrun].
  - exact Hlast.
Qed.

End ResolverMore.

(** ** The multi-value parser *)

Section DictMore.

Context {V : Type}.

Implicit Types (d : Dict.t V) (k : string) (v : V).

Lemma get_set k k' v d :
  Dict.get k (Dict.set k' v d)
  = if String.eqb k k' then Some v else Dict.get k d.
Proof.
  induction d as [|[k0 v0] d IH]; cbn; [reflexivity|].
  destruct (String.eqb k' k0) eqn:E0; cbn.
  - apply String.eqb_eq in E0. subst k0. now destruct (String.eqb k k').
  - destruct (String.eqb k k0) eqn:E1; [|exact IH].
    destruct (String.eqb k k') eqn:E; [|reflexivity].
    apply String.eqb_eq in E, E1. subst. now rewrite String.eqb_refl in E0.
Qed.

Lemma set_fresh k v d :
  Dict.mem k d = false -> Dict.set k v d = d ++ [(k, v)].
Proof.
  unfold Dict.mem. induction d as [|[k0 v0] d IH]; cbn; [reflexivity|].
  destruct (String.eqb k k0); [discriminate|]. intros Hk. now rewrite IH.
Qed.

Lemma mem_app_fresh k d d' :
  Dict.mem k (d ++ d') = Dict.mem k d || Dict.mem k d'.
Proof.
  unfold Dict.mem. induction d as [|[k0 v0] d IH]; cbn; [reflexivity|].
  now destruct (String.eqb k k0).
Qed.

End DictMore.

Section ParserMore.

Context (H : Host).

Implicit Types (self : StringParser.t) (interaction : Interaction H).
Implicit Types (value argument k : string) (values : list string) (w : World H).
Implicit Types (outcomes : list (Py.value * option ValidConverter * option exn)).

(** A resolver that answers without touching the state resolves a row of
    tokens to the row of its answers. *)
Lemma resolve_all_pure converters interaction
    (f : string -> Py.value * option ValidConverter * option exn) :
  (forall value w,
     utils._run_converters H converters interaction value w = (Ok (f value), w)) ->
  forall values w,
    run.resolve_all H converters interaction values w = (Ok (map f values), w).
Proof.
  intros Hf values. induction values as [|value rest IH]; intros w; [reflexivity|].
  cbn [run.resolve_all map]. now rewrite bind_run, Hf, bind_run, IH.
Qed.

Lemma resolved_with_map P k values
    (f : string -> Py.value * option ValidConverter * option exn) :
  run.resolved_with P k values (map f values) <-> k ∈ values /\ P (f k).
Proof.
  unfold run.resolved_with. split.
  - intros (j & o & Hv & Ho & HP). rewrite list_lookup_fmap, Hv in Ho.
    cbn in Ho. injection Ho as <-. split; [|exact HP].
    now apply list_elem_of_lookup_2 in Hv.
  - intros [Hin HP]. apply list_elem_of_lookup in Hin as [j Hj].
    exists j, (f k). rewrite list_lookup_fmap, Hj. auto.
Qed.


Lemma run_StringConverter interaction value w :
  utils._run_converters H [StringConverter] interaction value w
  = (Ok (Py.VStr value, Some StringConverter, None), w).
Proof. reflexivity. Qed.


(** X10. With [StringConverter] as the only converter no error is ever
    recorded, the host's state is left alone, and a token converts exactly
    when it is not empty: the empty token, which the split gives for a
    leading, trailing or doubled delimiter, is the one key [failed] can
    hold. *)
Theorem string_tokens_filed self interaction values w :
  StringParser.converters self = [StringConverter] ->
  exists s f,
    StringParser.loop H self interaction values
      (Dict.empty, Dict.empty, Dict.empty) w = (Ok (s, f, Dict.empty), w)
    /\ forall k,
         (Dict.mem k s = true <-> k ∈ values /\ k <> "")
         /\ (Dict.mem k f = true <-> k = "" /\ "" ∈ values).
Proof.
  intros Hcs.
  pose (answer := fun value : string =>
          (Py.VStr value, Some StringConverter, @None exn)).
  destruct (run.record_all values (map answer values)
              (Dict.empty, Dict.empty, Dict.empty)) as [[s f] e] eqn:Hrec.
  assert (Hmem : forall k,
             (Dict.mem k s = true <-> k ∈ values /\ k <> "")
             /\ (Dict.mem k f = true <-> k = "" /\ "" ∈ values)
             /\ Dict.mem k e = false).
  { intros k.
    destruct (record_all_mem values _ _ _ _ _ _ _ k
                (length_map _ _) Hrec) as (Hs & Hf & He).
    change (Dict.mem k Dict.empty) with false in Hs, Hf, He.
    rewrite Hs, Hf, !resolved_with_map. unfold answer. cbn.
    rewrite negb_true_iff, negb_false_iff, String.eqb_neq, String.eqb_eq.
    split; [|split].
    - split; [intros [?|?]; [discriminate|assumption]|auto].
    - split.
      + intros [?|[Hin ->]]; [discriminate|auto].
      + intros [-> Hin]. auto.
    - apply not_true_is_false. rewrite He, resolved_with_map.
      intros [?|[_ [x Hx]]]; discriminate. }
  assert (e = Dict.empty) as -> by (apply empty_no_key; intros k; apply Hmem).
  exists s, f. split.
  - rewrite loop_resolve_all, Hcs.
    rewrite (resolve_all_pure _ _ answer) by (intros; apply run_StringConverter).
    now rewrite Hrec.
  - intros k. destruct (Hmem k) as (Hs & Hf & _). now split.
Qed.

(** X11. The empty argument is refused: whatever the delimiter and the
    two flags, a parser whose only converter is [StringConverter] raises
    [ParsingFailed] on it, with an empty error mapping. *)
Theorem empty_argument_rejected self interaction w :
  StringParser.converters self = [StringConverter] ->
  StringParser.split_by self <> "" ->
  StringParser.transform H self interaction "" w
  = (Raise (ParsingFailed "" Dict.empty), w).
Proof.
  intros Hcs Hsep. unfold StringParser.transform, Py.split.
  destruct (StringParser.split_by self) as [|c sep]; [contradiction|].
  cbn [Py.split_go StringParser.loop]. rewrite !bind_run, Hcs.
  rewrite run_StringConverter. reflexivity.
Qed.

Lemma record_all_keys_NoDup values outcomes s f e s' f' e' :
  NoDup (Dict.keys s) -> NoDup (Dict.keys f) -> NoDup (Dict.keys e) ->
  run.record_all values outcomes (s, f, e) = (s', f', e') ->
  NoDup (Dict.keys s') /\ NoDup (Dict.keys f') /\ NoDup (Dict.keys e').
Proof.
  revert outcomes s f e.
  induction values as [|v rest IH]; intros [|o more] s f e Hs Hf He;
    try (cbn; now intros [= <- <- <-]).
  cbn [run.record_all]. destruct o as [[cv c] err].
  unfold StringParser.record.
  destruct (Py.truthy cv); destruct err; apply IH;
    auto using keys_set_NoDup.
Qed.

Lemma result_keys self interaction argument w res w' values :
  StringParser.transform H self interaction argument w = (Ok (Result res), w') ->
  Py.split argument (StringParser.split_by self) = Some values ->
  (forall k,
     Dict.mem k (success res) = true \/ Dict.mem k (failed res) = true
     \/ Dict.mem k (errors res) = true ->
     k ∈ values)
  /\ NoDup (Dict.keys (success res))
  /\ NoDup (Dict.keys (failed res))
  /\ NoDup (Dict.keys (errors res))
  /\ success res <> Dict.empty.
Proof.
  intros Htr Hsplit.
  assert (Hne : success res <> Dict.empty).
  { revert Htr. unfold StringParser.transform. rewrite Hsplit, bind_run.
    destruct (StringParser.loop H self interaction values _ w)
      as [[[[s f] e]|x] w1]; [|discriminate].
    destruct s; cbn; [discriminate|].
    destruct (StringParser.fail_on_error self && Dict.truthy f); [discriminate|].
    destruct (StringParser.only_values self); [discriminate|].
    intros [= <- <-]. discriminate. }
  apply transform_Result_inv in Htr as (values' & Hsplit' & Hloop).
  rewrite Hsplit in Hsplit'. injection Hsplit' as <-.
  rewrite loop_resolve_all in Hloop.
  destruct (run.resolve_all H _ interaction values w) as [[outcomes|x] w1] eqn:Hres;
    [|discriminate].
  injection Hloop as Hrec <-.
  pose proof (resolve_all_length _ _ _ _ _ _ _ Hres) as Hlen.
  split; [|split; [|split; [|split]]]; [| | | |exact Hne].
  - intros k Hk.
    destruct (record_all_mem _ _ _ _ _ _ _ _ k Hlen Hrec) as (Hs & Hf & He).
    change (Dict.mem k Dict.empty) with false in Hs, Hf, He.
    rewrite Hs, Hf, He in Hk.
    destruct Hk as [[?|Hk]|[[?|Hk]|[?|Hk]]]; try discriminate;
      destruct Hk as (j & o & Hj & _); now apply list_elem_of_lookup_2 in Hj.
  - eapply (record_all_keys_NoDup values outcomes
              Dict.empty Dict.empty Dict.empty); eauto using NoDup_nil_2.
  - eapply (record_all_keys_NoDup values outcomes
              Dict.empty Dict.empty Dict.empty); eauto using NoDup_nil_2.
  - eapply (record_all_keys_NoDup values outcomes
              Dict.empty Dict.empty Dict.empty); eauto using NoDup_nil_2.
Qed.

(** X12. The mappings of a returned [ParseResult] are keyed by tokens of
    the argument and by nothing else, each key once; and [success] is
    never empty. *)
Theorem result_keys_are_tokens self interaction argument w res w' values :
  StringParser.transform H self interaction argument w = (Ok (Result res), w') ->
  Py.split argument (StringParser.split_by self) = Some values ->
  (forall k,
     Dict.mem k (success res) = true \/ Dict.mem k (failed res) = true
     \/ Dict.mem k (errors res) = true ->
     k ∈ values)
  /\ NoDup (Dict.keys (success res))
  /\ NoDup (Dict.keys (failed res))
  /\ NoDup (Dict.keys (errors res))
  /\ success res <> Dict.empty.
Proof. apply result_keys. Qed.

Lemma record_all_distinct values outcomes s f e :
  NoDup values ->
  (forall k, k ∈ values -> Dict.mem k s = false) ->
  length outcomes = length values ->
  (forall o, o ∈ outcomes -> Py.truthy o.1.1 = true) ->
  exists e',
    run.record_all values outcomes (s, f, e)
    = (s ++ zip_with (fun value o => (value, (o.1.1, o.1.2))) values outcomes,
       f, e').
Proof.
  revert outcomes s e.
  induction values as [|v rest IH]; intros [|o more] s e Hnd Hfresh Hlen Hall;
    try discriminate.
  - exists e. cbn. now rewrite app_nil_r.
  - apply NoDup_cons in Hnd as [Hv Hnd]. injection Hlen as Hlen.
    cbn [run.record_all zip_with]. destruct o as [[cv c] err].
    unfold StringParser.record.
    pose proof (Hall (cv, c, err) (list_elem_of_here _ _)) as Hcv.
    cbn [fst snd] in Hcv. rewrite Hcv.
    rewrite set_fresh by (apply Hfresh, list_elem_of_here).
    destruct (IH more (s ++ [(v, (cv, c))])
                (match err with Some x => Dict.set v x e | None => e end)
                Hnd) as [e' He']; [|exact Hlen| |].
    + intros k Hk. rewrite mem_app_fresh, Hfresh by now apply list_elem_of_further.
      unfold Dict.mem. cbn. destruct (String.eqb k v) eqn:E; [|reflexivity].
      apply String.eqb_eq in E. subst k. contradiction.
    + intros o Ho. apply Hall. now apply list_elem_of_further.
    + exists e'. rewrite He'. cbn. now rewrite <- app_assoc.
Qed.

Lemma converted_zip values outcomes :
  length outcomes = length values ->
  map fst (Dict.values
             (zip_with (fun value o => (value, (o.1.1, o.1.2))) values outcomes))
  = map (fun o => o.1.1) outcomes.
Proof.
  revert outcomes. induction values as [|v rest IH]; intros [|o more] Hlen;
    try discriminate; [reflexivity|].
  injection Hlen as Hlen. cbn. f_equal. now apply IH.
Qed.

(** X13. When the tokens of the argument are pairwise distinct and the
    resolver returns a truthy value for each, [transform] returns: the
    success mapping has one entry per token, in the order of the tokens,
    the failed mapping is empty, and the converted values come in the
    order of the tokens. *)
Theorem distinct_tokens_all_convert
    self interaction argument w values outcomes w' :
  Py.split argument (StringParser.split_by self) = Some values ->
  NoDup values ->
  run.resolve_all H (StringParser.converters self) interaction values w
  = (Ok outcomes, w') ->
  (forall o, o ∈ outcomes -> Py.truthy o.1.1 = true) ->
  exists res,
    StringParser.transform H self interaction argument w
    = (Ok (if StringParser.only_values self
           then SequenceProxy (converted res) else Result res), w')
    /\ success res
       = zip_with (fun value o => (value, (o.1.1, o.1.2))) values outcomes
    /\ failed res = Dict.empty
    /\ converted res = map (fun o => o.1.1) outcomes
    /\ Dict.len (success res) = length values.
Proof.
  intros Hsplit Hnd Hres Hall.
  pose proof (resolve_all_length _ _ _ _ _ _ _ Hres) as Hlen.
  destruct (record_all_distinct values outcomes Dict.empty Dict.empty Dict.empty
              Hnd (fun _ _ => eq_refl) Hlen Hall) as [e' Hrec].
  cbn [app Dict.empty] in Hrec.
  assert (Hloop : StringParser.loop H self interaction values
                    (Dict.empty, Dict.empty, Dict.empty) w
                  = (Ok (zip_with (fun value o => (value, (o.1.1, o.1.2)))
                           values outcomes, [], e'), w')).
  { now rewrite loop_resolve_all, Hres, Hrec. }
  eexists {| argument := argument; failed := Dict.empty; errors := e' |}.
  rewrite (transform_after_loop _ _ _ _ _ _ _ _ _ _ Hsplit Hloop).
  cbn [Dict.truthy andb]. rewrite andb_false_r, orb_false_r.
  assert (Hz : Dict.truthy
                 (zip_with (fun value o => (value, (o.1.1, o.1.2)))
                    values outcomes) = true).
  { pose proof (split_nonempty _ _ _ Hsplit) as Hne.
    destruct values; [contradiction|]. destruct outcomes; [discriminate|].
    reflexivity. }
  rewrite Hz. cbn [negb].
  split; [reflexivity|]. split; [reflexivity|]. split; [reflexivity|]. split.
  - unfold converted. cbn [success]. now apply converted_zip.
  - cbn [success]. unfold Dict.len. rewrite length_zip_with. lia.
Qed.

Lemma resolve_all_Forall2 converters interaction values w outcomes w' :
  run.resolve_all H converters interaction values w = (Ok outcomes, w') ->
  Forall2 (fun value o =>
             exists wj wj',
               utils._run_converters H converters interaction value wj
               = (Ok o, wj'))
    values outcomes.
Proof.
  revert w outcomes. induction values as [|v rest IH]; intros w outcomes.
  - cbn. intros [= <- <-]. constructor.
  - cbn [run.resolve_all]. rewrite bind_run.
    destruct (utils._run_converters H _ interaction v w) as [[o|x] w1] eqn:Hrun;
      [|discriminate].
    rewrite bind_run.
    destruct (run.resolve_all H _ interaction rest w1) as [[os|x] w2] eqn:Hrest;
      [|discriminate].
    intros [= <- <-]. constructor; [eauto|]. now apply (IH w1).
Qed.

(** The entries of the two mappings keep what every resolution that wrote
    them satisfies. *)
Lemma record_all_entries
    (Qs : string -> Py.value * option ValidConverter -> Prop)
    (Qf : string -> option ValidConverter -> Prop)
    values outcomes s f e s' f' e' :
  (forall k x, Dict.get k s = Some x -> Qs k x) ->
  (forall k x, Dict.get k f = Some x -> Qf k x) ->
  Forall2 (fun value o =>
             if Py.truthy o.1.1 then Qs value (o.1.1, o.1.2)
             else Qf value o.1.2) values outcomes ->
  run.record_all values outcomes (s, f, e) = (s', f', e') ->
  (forall k x, Dict.get k s' = Some x -> Qs k x)
  /\ (forall k x, Dict.get k f' = Some x -> Qf k x).
Proof.
  intros Hs Hf Hall. revert s f e Hs Hf.
  induction Hall as [|v o rest more Ho _ IH]; intros s f e Hs Hf.
  - cbn. now intros [= <- <- <-].
  - cbn [run.record_all]. destruct o as [[cv c] err]. cbn [fst snd] in Ho.
    unfold StringParser.record.
    destruct (Py.truthy cv); apply IH; try assumption.
    + intros k x. rewrite get_set. destruct (String.eqb k v) eqn:E; [|apply Hs].
      apply String.eqb_eq in E. subst k. now intros [= <-].
    + intros k x. rewrite get_set. destruct (String.eqb k v) eqn:E; [|apply Hf].
      apply String.eqb_eq in E. subst k. now intros [= <-].
Qed.

Lemma result_entries self interaction argument w res w' :
  StringParser.transform H self interaction argument w = (Ok (Result res), w') ->
  (forall k v c,
     Dict.get k (success res) = Some (v, c) ->
     Py.truthy v = true
     /\ exists conv w1 w2,
          c = Some conv /\ conv ∈ StringParser.converters self
          /\ run.call H conv interaction k w1 = (Ok v, w2))
  /\ (forall k c,
        Dict.get k (failed res) = Some c ->
        c = last (StringParser.converters self)).
Proof.
  intros Htr. apply transform_Result_inv in Htr as (values & Hsplit & Hloop).
  rewrite loop_resolve_all in Hloop.
  destruct (run.resolve_all H _ interaction values w) as [[outcomes|x] w1] eqn:Hres;
    [|discriminate].
  injection Hloop as Hrec <-.
  destruct (record_all_entries
              (fun k x =>
                 Py.truthy x.1 = true
                 /\ exists conv w1 w2,
                      x.2 = Some conv /\ conv ∈ StringParser.converters self
                      /\ run.call H conv interaction k w1 = (Ok x.1, w2))
              (fun _ c => c = last (StringParser.converters self))
              values outcomes Dict.empty Dict.empty Dict.empty
              (success res) (failed res) (errors res)) as [Hs Hf];
    [discriminate|discriminate| |exact Hrec|].
  - apply resolve_all_Forall2 in Hres.
    eapply Forall2_impl; [exact Hres|].
    intros value [[cv used] err] (wj & wj' & Hrun). cbn [fst snd].
    unfold utils._run_converters in Hrun.
    destruct (Py.truthy cv) eqn:Hcv.
    + split; [reflexivity|].
      destruct (loop_value_returned H (StringParser.converters self)
                  interaction value Py.VNone None None wj cv used err wj')
        as (conv & wa & wb & -> & Hc); [discriminate|exact Hrun|exact Hcv|].
      exists conv, wa, wb. split; [reflexivity|]. split; [|exact Hc].
      apply loop_used_member in Hrun as [?|(c' & Hin & [= <-])];
        [discriminate|exact Hin].
    + rewrite (loop_falsy_last H _ _ _ _ _ _ _ _ _ _ _ Hrun Hcv).
      now destruct (last (StringParser.converters self)).
  - split.
    + intros k v c Hk. destruct (Hs k (v, c) Hk) as (Hv & conv & wa & wb & Hc).
      cbn in *. eauto 8.
    + exact Hf.
Qed.

(** X14. Every entry of the success mapping of a returned [ParseResult]
    holds a truthy value together with the converter that returned that
    value on that token, a member of the parser's converter list. *)
Theorem success_entries_sound self interaction argument w res w' k v c :
  StringParser.transform H self interaction argument w = (Ok (Result res), w') ->
  Dict.get k (success res) = Some (v, c) ->
  Py.truthy v = true
  /\ exists conv w1 w2,
       c = Some conv /\ conv ∈ StringParser.converters self
       /\ run.call H conv interaction k w1 = (Ok v, w2).
Proof. intros Htr. now apply (proj1 (result_entries _ _ _ _ _ _ Htr)). Qed.

(** X15. Every entry of the failed mapping of a returned [ParseResult]
    names the last converter of the parser's list, whichever converters
    raised on that token. *)
Theorem failed_entries_name_last self interaction argument w res w' k c :
  StringParser.transform H self interaction argument w = (Ok (Result res), w') ->
  Dict.get k (failed res) = Some c ->
  c = last (StringParser.converters self).
Proof. intros Htr. now apply (proj2 (result_entries _ _ _ _ _ _ Htr)). Qed.

End ParserMore.

(** ** The variadic wrapper *)

Section VariadicMore.

Context (H : Host).

Implicit Types (self : VariadicArgs.t) (interaction : Interaction H).
Implicit Types (argument : string) (arguments : list string) (w : World H).

Lemma get_of_entry {V : Type} (d : Dict.t V) k x :
  NoDup (Dict.keys d) -> (k, x) ∈ d -> Dict.get k d = Some x.
Proof.
  unfold Dict.keys. induction d as [|[k0 v0] d IH]; cbn; intros Hnd Hin.
  - inversion Hin.
  - apply NoDup_cons in Hnd as [Hk0 Hnd].
    apply elem_of_cons in Hin as [[= -> ->]|Hin].
    + now rewrite String.eqb_refl.
    + destruct (String.eqb k k0) eqn:E; [|now apply IH].
      apply String.eqb_eq in E. subst k0. destruct Hk0.
      apply list_elem_of_fmap. now exists (k, x).
Qed.

Lemma not_below n lo :
  below n lo = false ->
  forall m, lo = Some m -> m <> 0%Z -> (m <= Z.of_nat n)%Z.
Proof.
  intros Hb m -> Hm. cbn in Hb. apply andb_false_iff in Hb as [Hb|Hb].
  - apply negb_false_iff, Z.eqb_eq in Hb. contradiction.
  - apply Z.ltb_ge in Hb. exact Hb.
Qed.

Lemma not_above n hi :
  above n hi = false ->
  forall m, hi = Some m -> m <> 0%Z -> (Z.of_nat n <= m)%Z.
Proof.
  intros Hb m -> Hm. cbn in Hb. apply andb_false_iff in Hb as [Hb|Hb].
  - apply negb_false_iff, Z.eqb_eq in Hb. contradiction.
  - apply Z.ltb_ge in Hb. exact Hb.
Qed.

(** X16. What a return of [VariadicArgs.transform] guarantees: the
    tokens of the argument are pairwise distinct, their number respects
    every bound that is set and not zero, and the sequence holds one truthy
    value per token. *)
Theorem variadic_return_guarantees
    min max converters split_by self interaction argument w items w' :
  VariadicArgs.init H min max converters split_by = Ok self ->
  VariadicArgs.transform H self interaction argument w = (Ok items, w') ->
  exists arguments,
    Py.split argument split_by = Some arguments
    /\ NoDup arguments
    /\ length items = length arguments
    /\ (forall item, item ∈ items -> Py.truthy item = true)
    /\ (forall m, min = Some m -> m <> 0%Z -> (m <= Z.of_nat (length arguments))%Z)
    /\ (forall m, max = Some m -> m <> 0%Z -> (Z.of_nat (length arguments) <= m)%Z).
Proof.
  intros Hinit Htr.
  apply init_inv in Hinit as (Hlo & Hhi & Hsep & _ & _).
  unfold VariadicArgs.transform in Htr. rewrite Hsep in Htr.
  destruct (Py.split argument split_by) as [arguments|] eqn:Hsplit;
    [|discriminate].
  destruct (StringParser.transform H (VariadicArgs.base self) interaction
              argument w) as [[[res|l]|x] w1] eqn:Hbase.
  2: discriminate.
  2: { destruct x; discriminate. }
  destruct (negb _ || below _ _ || above _ _) eqn:Hbounds; [discriminate|].
  destruct (negb (Dict.truthy (success res)) || Dict.truthy (failed res)
            || negb (Nat.eqb (Dict.len (success res)) (length arguments)))
    eqn:Hall; [discriminate|].
  injection Htr as <- <-.
  apply orb_false_iff in Hbounds as [Hbounds Ha].
  apply orb_false_iff in Hbounds as [_ Hb].
  apply orb_false_iff in Hall as [_ Hlen].
  apply negb_false_iff, Nat.eqb_eq in Hlen.
  rewrite <- Hsep in Hsplit.
  destruct (result_keys H _ _ _ _ _ _ _ Hbase Hsplit)
    as (Hsub & Hnd & _ & _ & _).
  destruct (result_entries H _ _ _ _ _ _ Hbase) as [Hentries _].
  rewrite Hsep in Hsplit.
  exists arguments. split; [reflexivity|]. split; [|split; [|split; [|split]]].
  - destruct (decide (NoDup arguments)) as [Hok|Hdup]; [exact Hok|].
    destruct (repeated_token_shortens arguments (success res) Hdup Hnd); [|exact Hlen].
    intros k Hk. apply Hsub. now left.
  - unfold converted, Dict.values. rewrite !length_map. exact Hlen.
  - intros item Hitem. unfold converted, Dict.values in Hitem.
    apply list_elem_of_fmap in Hitem as ([v c] & -> & Hitem).
    apply list_elem_of_fmap in Hitem as ([k x] & [= <-] & Hitem).
    apply get_of_entry in Hitem; [|exact Hnd].
    now destruct (Hentries k v c Hitem).
  - rewrite <- Hlo. now apply not_below.
  - rewrite <- Hhi. now apply not_above.
Qed.

(** X17. The order of the three refusals. When no token converts,
    [VariadicArgsFailed] is raised whatever the bounds say about the
    count; when some token converts and the count breaks a bound,
    [InvalidVariadicArguments] is raised whatever tokens failed. *)
Theorem variadic_refusals_in_order
    min max converters split_by self interaction argument w
    arguments s f e w' :
  VariadicArgs.init H min max converters split_by = Ok self ->
  Py.split argument split_by = Some arguments ->
  StringParser.loop H (VariadicArgs.base self) interaction arguments
    (Dict.empty, Dict.empty, Dict.empty) w = (Ok (s, f, e), w') ->
  (s = Dict.empty ->
   VariadicArgs.transform H self interaction argument w
   = (Raise (VariadicArgsFailed_init argument arguments e), w'))
  /\ (s <> Dict.empty ->
      below (length arguments) min || above (length arguments) max = true ->
      VariadicArgs.transform H self interaction argument w
      = (Raise (InvalidVariadicArguments_init argument arguments min max), w')).
Proof.
  intros Hinit Hsplit Hloop.
  apply init_inv in Hinit as (Hlo & Hhi & Hsep & Honly & Hfail).
  unfold VariadicArgs.transform. rewrite Hsep, Hsplit.
  rewrite <- Hsep in Hsplit.
  rewrite (transform_after_loop _ _ _ _ _ _ _ _ _ _ Hsplit Hloop).
  rewrite Hfail, Honly, Hlo, Hhi. cbn [andb]. rewrite orb_false_r. split.
  - intros ->. reflexivity.
  - intros Hs Hout. destruct s; [contradiction|]. cbn [Dict.truthy negb].
    cbn [success failed errors].
    rewrite <- orb_assoc, Hout, orb_true_r. reflexivity.
Qed.

(** X18. Once every token has been resolved, whatever
    [VariadicArgs.transform] raises is an [InvalidVariadicArguments], the
    class itself or its subclass [VariadicArgsFailed], and so an
    [AppCommandError] of the host. *)
Theorem variadic_errors_are_InvalidVariadicArguments
    min max converters split_by self interaction argument w
    arguments s f e w' x w'' :
  VariadicArgs.init H min max converters split_by = Ok self ->
  Py.split argument split_by = Some arguments ->
  StringParser.loop H (VariadicArgs.base self) interaction arguments
    (Dict.empty, Dict.empty, Dict.empty) w = (Ok (s, f, e), w') ->
  VariadicArgs.transform H self interaction argument w = (Raise x, w'') ->
  is_InvalidVariadicArguments x = true /\ is_AppCommandError x = true.
Proof.
  intros Hinit Hsplit Hloop.
  apply init_inv in Hinit as (Hlo & Hhi & Hsep & Honly & Hfail).
  unfold VariadicArgs.transform. rewrite Hsep, Hsplit.
  rewrite <- Hsep in Hsplit.
  rewrite (transform_after_loop _ _ _ _ _ _ _ _ _ _ Hsplit Hloop).
  rewrite Hfail, Honly. cbn [andb]. rewrite orb_false_r.
  destruct (Dict.truthy s); cbn [negb orb].
  - cbn [success failed errors].
    repeat match goal with
           | |- context [if ?b then _ else _] => destruct b
           end.
    all: try discriminate.
    all: intros [= <- <-]; now split.
  - intros [= <- <-]. now split.
Qed.

(** X19. A bound of zero is no bound: with [min=0] and [max=0] the
    wrapper behaves on every argument as it does with neither bound
    set. *)
Theorem variadic_zero_bound_is_no_bound base interaction argument w :
  VariadicArgs.transform H
    {| VariadicArgs.min := Some 0%Z; VariadicArgs.max := Some 0%Z;
       VariadicArgs.base := base |} interaction argument w
  = VariadicArgs.transform H
      {| VariadicArgs.min := None; VariadicArgs.max := None;
         VariadicArgs.base := base |} interaction argument w.
Proof.
  unfold VariadicArgs.transform. cbn [VariadicArgs.base VariadicArgs.min VariadicArgs.max].
  destruct (Py.split argument (StringParser.split_by base)) as [l|] eqn:Hsplit;
    [|reflexivity].
  apply split_nonempty in Hsplit. destruct l as [|a l]; [contradiction|].
  destruct (StringParser.transform H base interaction argument w)
    as [[[res|items]|x] w']; reflexivity.
Qed.

End VariadicMore.

(** ** The further properties on [sample_host] *)


Lemma get_converters_drops_nothing_witness :
  length [Union [discord Role; builtin py_int]; builtin py_str]
  <= length [commands RoleConverter; IntegerConverter; StringConverter].
Proof.
  apply (get_converters_drops_nothing sample_host
           [Union [discord Role; builtin py_int]; builtin py_str]
           [commands RoleConverter; IntegerConverter; StringConverter] eq_refl).
Defined.

Lemma get_converters_union_in_place_witness :
  utils._get_converters sample_host
    [builtin py_str; Union [discord Role; builtin py_int]]
  = utils._get_converters sample_host
      [builtin py_str; discord Role; builtin py_int].
Proof.
  apply (get_converters_union_in_place sample_host
           [builtin py_str] [] [discord Role; builtin py_int]).
  - discriminate.
  - reflexivity.
Defined.

Lemma get_converters_first_error_witness :
  utils._get_converters sample_host
    [builtin py_int; discord Attachment; builtin py_str]
  = Raise (TypeError attachments_not_convertible).
Proof.
  apply (get_converters_first_error sample_host
           [builtin py_int] (discord Attachment) [builtin py_str]
           [IntegerConverter]); reflexivity.
Defined.

Lemma get_converters_refuses_transformer_class_witness :
  utils._get_converters sample_host
    [builtin py_int; custom OnlyTransformer]
  = Raise (TypeError (expected_converter (custom OnlyTransformer))).
Proof.
  apply (get_converters_refuses_transformer_class sample_host
           [builtin py_int] [] [IntegerConverter] OnlyTransformer);
    reflexivity.
Defined.

Lemma run_converters_foreign_error_witness :
  utils._run_converters sample_host
    [IntegerConverter; Unknown; StringConverter] tt "x" 0
  = (Raise (TypeError (expected_converter Unknown)), 0).
Proof.
  apply (run_converters_foreign_error sample_host
           [IntegerConverter] Unknown [StringConverter] tt "x" 0
           [Raise (NotAnInteger "x")] 0); reflexivity.
Defined.

Lemma run_converters_triple_witness :
  Some StringConverter = None <-> [IntegerConverter; StringConverter] = [].
Proof.
  apply (run_converters_triple sample_host
           [IntegerConverter; StringConverter] tt "x" 0
           (Py.VStr "x") (Some StringConverter) (Some (NotAnInteger "x")) 0
           eq_refl).
Defined.


Lemma string_tokens_filed_witness :
  exists s f,
    StringParser.loop sample_host string_parser tt ["a"; ""; "b"]
      (Dict.empty, Dict.empty, Dict.empty) 0 = (Ok (s, f, Dict.empty), 0).
Proof.
  destruct (string_tokens_filed sample_host string_parser tt
              ["a"; ""; "b"] 0 eq_refl) as (s & f & Hloop & _).
  now exists s, f.
Defined.

Lemma empty_argument_rejected_witness :
  StringParser.transform sample_host string_parser tt "" 0
  = (Raise (ParsingFailed "" Dict.empty), 0).
Proof.
  apply (empty_argument_rejected sample_host string_parser tt 0 eq_refl).
  discriminate.
Defined.

Lemma result_keys_are_tokens_witness :
  NoDup (Dict.keys [("1", (Py.VInt 1, Some IntegerConverter))]).
Proof.
  apply (result_keys_are_tokens sample_host integer_parser tt "1 x" 0
           {| argument := "1 x";
              success := [("1", (Py.VInt 1, Some IntegerConverter))];
              failed := [("x", Some IntegerConverter)];
              errors := [("x", NotAnInteger "x")] |}
           0 ["1"; "x"] eq_refl eq_refl).
Defined.

Lemma distinct_tokens_all_convert_witness :
  exists res,
    StringParser.transform sample_host string_parser tt "a b" 0
    = (Ok (Result res), 0)
    /\ converted res = [Py.VStr "a"; Py.VStr "b"].
Proof.
  destruct (distinct_tokens_all_convert sample_host string_parser tt "a b" 0
              ["a"; "b"]
              [(Py.VStr "a", Some StringConverter, None);
               (Py.VStr "b", Some StringConverter, None)] 0
              eq_refl) as (res & Htr & _ & _ & Hconv & _).
  - apply NoDup_cons. split.
    + intros Hin. apply list_elem_of_singleton in Hin. discriminate.
    + apply NoDup_singleton.
  - reflexivity.
  - intros o Ho. apply elem_of_cons in Ho as [->|Ho]; [reflexivity|].
    apply list_elem_of_singleton in Ho as ->. reflexivity.
  - exists res. split; [exact Htr|exact Hconv].
Defined.

Lemma success_entries_sound_witness : Py.truthy (Py.VInt 1) = true.
Proof.
  apply (success_entries_sound sample_host integer_parser tt "1 x" 0
           {| argument := "1 x";
              success := [("1", (Py.VInt 1, Some IntegerConverter))];
              failed := [("x", Some IntegerConverter)];
              errors := [("x", NotAnInteger "x")] |}
           0 "1" (Py.VInt 1) (Some IntegerConverter) eq_refl eq_refl).
Defined.

Lemma failed_entries_name_last_witness :
  Some IntegerConverter = last (StringParser.converters integer_parser).
Proof.
  apply (failed_entries_name_last sample_host integer_parser tt "1 x" 0
           {| argument := "1 x";
              success := [("1", (Py.VInt 1, Some IntegerConverter))];
              failed := [("x", Some IntegerConverter)];
              errors := [("x", NotAnInteger "x")] |}
           0 "x" (Some IntegerConverter) eq_refl eq_refl).
Defined.

Lemma variadic_return_guarantees_witness :
  exists arguments,
    Py.split "a b" " " = Some arguments /\ NoDup arguments.
Proof.
  destruct (variadic_return_guarantees sample_host
              (Some 2%Z) (Some 3%Z) (inl (builtin py_str)) " "
              two_to_three tt "a b" 0 [Py.VStr "a"; Py.VStr "b"] 0
              eq_refl eq_refl) as (arguments & Hsplit & Hnd & _).
  now exists arguments.
Defined.

Lemma variadic_refusals_in_order_witness :
  VariadicArgs.transform sample_host two_to_three tt "a" 0
  = (Raise (InvalidVariadicArguments_init "a" ["a"] (Some 2%Z) (Some 3%Z)), 0).
Proof.
  apply (variadic_refusals_in_order sample_host
           (Some 2%Z) (Some 3%Z) (inl (builtin py_str)) " "
           two_to_three tt "a" 0 ["a"]
           [("a", (Py.VStr "a", Some StringConverter))] [] [] 0
           eq_refl eq_refl eq_refl).
  - discriminate.
  - reflexivity.
Defined.

Lemma variadic_errors_are_InvalidVariadicArguments_witness :
  is_InvalidVariadicArguments
    (InvalidVariadicArguments_init "a" ["a"] (Some 2%Z) (Some 3%Z)) = true.
Proof.
  apply (variadic_errors_are_InvalidVariadicArguments sample_host
           (Some 2%Z) (Some 3%Z) (inl (builtin py_str)) " "
           two_to_three tt "a" 0 ["a"]
           [("a", (Py.VStr "a", Some StringConverter))] [] [] 0
           (InvalidVariadicArguments_init "a" ["a"] (Some 2%Z) (Some 3%Z)) 0
           eq_refl eq_refl eq_refl eq_refl).
Defined.
